(** * The Streamlit front end of AI Doc Gen ([app.py])

    A shallow embedding of the page controllers of [app.py] and the
    properties of the orchestration contract between the pages and the three
    external handlers.

    The script talks to four things it does not own: the browser (widget
    values in, rendered elements out), the filesystem, Streamlit's session
    state, and the handler / logger objects.  Each is modelled explicitly:

    - widget values come from a widget store keyed by the widget's label;
    - rendered elements are appended to a [screen] trace;
    - the filesystem is what [pathlib] lets the script observe of it: for
      every path, what [exists()], [is_file()], [is_dir()], [glob("*.md")]
      and [read_text()] give, each of which returns or fails;
    - the session state is a finite map from attribute names to values;
    - a handler is a function from its configuration and the filesystem to a
      new filesystem and an optional raised exception, and so is the logger,
      which writes a file.

    Page code is written in a state-and-exception monad over the [world]
    record, so that the Rocq text follows the Python statement by statement. *)

From Stdlib Require Import ZArith Ascii.
From stdpp Require Import gmap strings list.

Local Open Scope string_scope.
Local Open Scope list_scope.
Local Open Scope Z_scope.

Set Warnings "-register-all".

(** ** Python values and exceptions *)

(** A [pathlib.Path] on a POSIX system: its root (the empty string for a
    relative path, one slash, or two slashes, which POSIX tells apart from
    one) and its components. *)
Record path := mkPath { root : string; parts : list string }.

(** What the script stores in [st.session_state], and what the browser sends
    back for a widget. *)
Inductive value :=
| VBool (b : bool)
| VInt (z : Z)
| VStr (s : string)
| VList (l : list path).

(** Python truthiness, as used by [if] and [and]. *)
Definition truthy (v : value) : bool :=
  match v with
  | VBool b => b
  | VInt z => negb (z =? 0)
  | VStr s => negb (String.eqb s "")
  | VList l => match l with [] => false | _ => true end
  end.

(** A raised exception: whether its class derives from [Exception] (as
    opposed to deriving from [BaseException] only, like [KeyboardInterrupt],
    [SystemExit] and [asyncio.CancelledError]), and what [str(e)] gives. *)
Record exn := mkExn { is_Exception : bool; message : string }.

Inductive result (A : Type) :=
| Ok (a : A)
| Raise (e : exn).
Arguments Ok {A} a.
Arguments Raise {A} e.

(** ** Paths *)

Fixpoint split_slash (s : string) (cur : string) : list string :=
  match s with
  | EmptyString => [cur]
  | String c s' =>
      if Ascii.eqb c "/"%char then cur :: split_slash s' ""
      else split_slash s' (cur +:+ String c "")
  end.

Definition is_component (c : string) : bool :=
  negb (String.eqb c "") && negb (String.eqb c ".").

(** The root of a path text: exactly two leading slashes are kept, one
    slash or three and more make the root [/]. *)
Definition splitroot (text : string) : string :=
  match text with
  | String "/"%char (String "/"%char (String "/"%char _)) => "/"
  | String "/"%char (String "/"%char _) => "//"
  | String "/"%char _ => "/"
  | _ => EmptyString
  end.

(** [Path(text)]: empty components and single dots are dropped. *)
Definition Path (text : string) : path :=
  {| root := splitroot text;
     parts := List.filter is_component (split_slash text "") |}.

(** [p.is_absolute()] *)
Definition absolute (p : path) : bool := negb (String.eqb (root p) "").

(** [p / name] for a single relative component. *)
Definition joinpath (p : path) (name : string) : path :=
  {| root := root p; parts := parts p ++ [name] |}.
Infix "//" := joinpath (at level 40, left associativity).

Fixpoint join_slash (l : list string) : string :=
  match l with
  | [] => ""
  | [c] => c
  | c :: l' => c +:+ "/" +:+ join_slash l'
  end.

(** [str(p)] *)
Definition str (p : path) : string :=
  if absolute p then root p +:+ join_slash (parts p)
  else match parts p with [] => "." | l => join_slash l end.

(** [p.name] *)
Definition name (p : path) : string := List.last (parts p) "".

(** ** The filesystem *)

(** What a call into [pathlib] gives: a value, or a failure with the text of
    the exception it raises. *)
Inductive outcome (A : Type) :=
| Done (a : A)
| Failed (message : string).
Arguments Done {A} a.
Arguments Failed {A} message.

(** The exceptions [pathlib] raises ([OSError] and its subclasses, and
    [UnicodeDecodeError] when a file does not decode) derive from
    [Exception]. *)
Definition library_error (text : string) : exn :=
  {| is_Exception := true; message := text |}.

Definition raised {A} (o : outcome A) : result A :=
  match o with
  | Done a => Ok a
  | Failed text => Raise (library_error text)
  end.

(** The filesystem as the script observes it.  Every query can fail:
    [exists()], [is_file()] and [is_dir()] answer [False] when the path or
    one of its parents is missing and re-raise any other error of [stat]
    (a name that is too long, a directory that may not be searched);
    [glob] starts with [is_dir()]; [read_text()] opens and decodes the
    file. *)
Record filesystem := mkFs {
  cwd : list string;                       (* the components of [Path.cwd()] *)
  path_exists : path → outcome bool;       (* [p.exists()] *)
  is_file : path → outcome bool;           (* [p.is_file()] *)
  is_dir : path → outcome bool;            (* [p.is_dir()] *)
  glob_md : path → outcome (list path);    (* [list(p.glob("*.md"))] *)
  read_text : path → outcome string        (* [p.read_text()] *)
}.

(** [Path.cwd()] *)
Definition Path_cwd (f : filesystem) : path :=
  {| root := "/"; parts := cwd f |}.

(** *** A disk

    A filesystem made of a tree of directories and regular files.  A
    regular file is given by what reading it as text yields: the decoded
    text with its line ends translated, or the failure of the read (the
    bytes do not decode, the file may not be opened). *)

Inductive node :=
| File (text : outcome string)
| Dir (entries : list (string * node)).

Fixpoint entry (n : string) (es : list (string * node)) : option node :=
  match es with
  | [] => None
  | (n', x) :: es' => if String.eqb n n' then Some x else entry n es'
  end.

(** The limits of Linux on the bytes of one component and of a whole path
    (the latter counts the final NUL). *)
Definition NAME_MAX : nat := 255.
Definition PATH_MAX : nat := 4096.

(** What [stat] finds at a path. *)
Inductive status :=
| Found (n : node)
| ENOENT
| ENOTDIR
| ENAMETOOLONG.

(** Walking down from a directory; [above] holds the ancestors of [cur], the
    nearest first, for the [..] component. *)
Fixpoint walk (above : list node) (cur : node) (p : list string) : status :=
  match p with
  | [] => Found cur
  | c :: p' =>
      match cur with
      | File _ => ENOTDIR
      | Dir es =>
          if String.eqb c ".." then
            match above with
            | [] => walk [] cur p'
            | up :: above' => walk above' up p'
            end
          else if (NAME_MAX <? String.length c)%nat then ENAMETOOLONG
          else
            match entry c es with
            | Some x => walk (cur :: above) x p'
            | None => ENOENT
            end
      end
  end.

Definition stat (tree : list (string * node)) (cwd : list string) (p : path) : status :=
  if (PATH_MAX <=? String.length (str p))%nat then ENAMETOOLONG
  else walk [] (Dir tree) ((if absolute p then [] else cwd) ++ parts p).

(** [str(e)] for an [OSError] on path [p]. *)
Definition strerror (errno : string) (what : string) (p : path) : string :=
  "[Errno " +:+ errno +:+ "] " +:+ what +:+ ": '" +:+ str p +:+ "'".

Definition FileNotFoundError := strerror "2" "No such file or directory".
Definition NotADirectoryError := strerror "20" "Not a directory".
Definition IsADirectoryError := strerror "21" "Is a directory".
Definition FileNameTooLong := strerror "36" "File name too long".

(** [exists()], [is_file()] and [is_dir()] share their error handling:
    ENOENT and ENOTDIR mean [False], ENAMETOOLONG is raised. *)
Definition test_node (test : node → bool) (s : status) (p : path) : outcome bool :=
  match s with
  | Found n => Done (test n)
  | ENOENT | ENOTDIR => Done false
  | ENAMETOOLONG => Failed (FileNameTooLong p)
  end.

Definition ends_with_md (n : string) : bool :=
  let k := String.length n in
  (3 <=? k)%nat && String.eqb (String.substring (k - 3)%nat 3 n) ".md".

(** [p.glob("*.md")]: the entries of the directory [p] whose name ends in
    [.md], directories included, in directory order; nothing when [p] is not
    a directory. *)
Definition list_md (s : status) (p : path) : outcome (list path) :=
  match s with
  | Found (Dir es) => Done (List.map (joinpath p) (List.filter ends_with_md (List.map fst es)))
  | Found (File _) | ENOENT | ENOTDIR => Done []
  | ENAMETOOLONG => Failed (FileNameTooLong p)
  end.

Definition read_node (s : status) (p : path) : outcome string :=
  match s with
  | Found (File text) => text
  | Found (Dir _) => Failed (IsADirectoryError p)
  | ENOENT => Failed (FileNotFoundError p)
  | ENOTDIR => Failed (NotADirectoryError p)
  | ENAMETOOLONG => Failed (FileNameTooLong p)
  end.

Definition disk_of (tree : list (string * node)) (cwd : list string) : filesystem :=
  {| cwd := cwd;
     path_exists := λ p, test_node (λ _, true) (stat tree cwd p) p;
     is_file := λ p, test_node (λ n, match n with File _ => true | Dir _ => false end)
                  (stat tree cwd p) p;
     is_dir := λ p, test_node (λ n, match n with Dir _ => true | File _ => false end)
                 (stat tree cwd p) p;
     glob_md := λ p, list_md (stat tree cwd p) p;
     read_text := λ p, read_node (stat tree cwd p) p |}.

(** ** Handler configurations *)

(** The three configuration classes are declared with the handlers, outside
    [app.py].  Their fields are taken from the configuration surface the
    spec enumerates, which is exactly the set of keyword arguments the page
    controllers pass. *)

Module AnalyzeHandlerConfig.
(** Modelled from the spec: the class [AnalyzeHandlerConfig] of
    [handlers/analyze.py], with the fields [repo_path], the five
    [exclude_*] flags and [max_workers]. *)
Record t := mk {
  repo_path : path;
  exclude_code_structure : bool;
  exclude_dependencies : bool;
  exclude_data_flow : bool;
  exclude_request_flow : bool;
  exclude_api_analysis : bool;
  max_workers : Z
}.
End AnalyzeHandlerConfig.

Module ReadmeHandlerConfig.
(** Modelled from the spec: the class [ReadmeHandlerConfig] of
    [handlers/readme.py], with the fields [repo_path],
    [use_existing_readme], the nine section flags and
    [exclude_additional_documentation]. *)
Record t := mk {
  repo_path : path;
  use_existing_readme : bool;
  exclude_project_overview : bool;
  exclude_table_of_contents : bool;
  exclude_architecture : bool;
  exclude_c4_model : bool;
  exclude_repository_structure : bool;
  exclude_dependencies_and_integration : bool;
  exclude_api_documentation : bool;
  exclude_development_notes : bool;
  exclude_known_issues_and_limitations : bool;
  exclude_additional_documentation : bool
}.
End ReadmeHandlerConfig.

Module AIRulesHandlerConfig.
(** Modelled from the spec: the class [AIRulesHandlerConfig] of
    [handlers/ai_rules.py], with the fields [repo_path], the three
    [skip_existing_*] flags, [detail_level] and the two line limits. *)
Record t := mk {
  repo_path : path;
  skip_existing_claude_md : bool;
  skip_existing_agents_md : bool;
  skip_existing_cursor_rules : bool;
  detail_level : string;
  max_claude_lines : Z;
  max_agents_lines : Z
}.
End AIRulesHandlerConfig.

(** ** The outside world *)

(** One [handle()] call, run to completion by [asyncio.run]: the handler
    sees its configuration and the filesystem, leaves a filesystem behind,
    and either returns or raises. *)
Definition handler (C : Type) : Type := C → filesystem → filesystem * option exn.

Record externals := mkExt {
  AnalyzeHandler : handler AnalyzeHandlerConfig.t;
  ReadmeHandler : handler ReadmeHandlerConfig.t;
  AIRulesHandler : handler AIRulesHandlerConfig.t;
  (* [Logger.error(msg, exc_info=True)]: the logger writes to its file
     under [Path.cwd()], and returns or raises *)
  Logger_error : string → filesystem → filesystem * option exn
}.

(** A handler invocation, with the configuration passed. *)
Inductive handler_call :=
| CallAnalyze (c : AnalyzeHandlerConfig.t)
| CallReadme (c : ReadmeHandlerConfig.t)
| CallAIRules (c : AIRulesHandlerConfig.t).

(** What the script renders once an action button is handled.  The static
    markup above the button (headers, column layout, captions) and the
    sidebar are not recorded. *)
Inductive element :=
| st_spinner (text : string)
| st_error (body : string)
| st_success (body : string)
| st_info (body : string)
| st_markdown (body : string)
| st_code (body language : string)
| st_expander (label : string)
| st_download_button (label data file_name mime : string).

Record world := mkWorld {
  fs : filesystem;
  session_state : gmap string value;
  screen : list element;
  (* the handler invocations made so far, each with the exception it raised *)
  calls : list (handler_call * option exn);
  (* the messages [Logger.error] has accepted *)
  log : list string
}.

(** ** The script monad: state that survives a raised exception *)

Definition M (A : Type) : Type := world → result A * world.

Definition ret {A} (a : A) : M A := λ w, (Ok a, w).

Definition bind {A B} (m : M A) (k : A → M B) : M B := λ w,
  match m w with
  | (Ok a, w') => k a w'
  | (Raise e, w') => (Raise e, w')
  end.

Declare Scope script_scope.
Delimit Scope script_scope with script.
Bind Scope script_scope with M.
Notation "x ← y ; z" := (bind y (λ x, z))
  (at level 20, y at level 100, z at level 200, only parsing) : script_scope.
Notation "y ;; z" := (bind y (λ _, z))
  (at level 100, z at level 200, only parsing, right associativity) : script_scope.
Local Open Scope script_scope.

Definition raise {A} (e : exn) : M A := λ w, (Raise e, w).

(** [try: body  except <class> as e: on_exn e], where [caught] says which
    exceptions the [except] clause matches. *)
Definition try_except {A} (body : M A) (caught : exn → bool) (on_exn : exn → M A) : M A :=
  λ w, match body w with
       | (Raise e, w') => if caught e then on_exn e w' else (Raise e, w')
       | r => r
       end.

(** [except Exception] and the bare [except:] *)
Definition except_Exception : exn → bool := is_Exception.
Definition except_all : exn → bool := λ _, true.

Fixpoint for_each {A} (l : list A) (body : A → M unit) : M unit :=
  match l with
  | [] => ret tt
  | x :: l' => body x;; for_each l' body
  end.

Definition emit (e : element) : M unit := λ w,
  (Ok tt, mkWorld (fs w) (session_state w) (screen w ++ [e]) (calls w) (log w)).

Definition on_fs {A} (op : filesystem → A) : M A := λ w, (Ok (op (fs w)), w).

Definition on_fs_raising {A} (op : filesystem → outcome A) : M A :=
  λ w, (raised (op (fs w)), w).

(** *** Session state *)

(** Reading an attribute that was never set (Streamlit's message, abridged). *)
Definition AttributeError (key : string) : exn :=
  {| is_Exception := true;
     message := "st.session_state has no attribute " +:+ key |}.

Definition TypeError (what : string) : exn :=
  {| is_Exception := true; message := what |}.

(** Raised by [file_path.name] when the loop walks the characters of a
    string. *)
Definition AttributeError_name : exn :=
  {| is_Exception := true; message := "'str' object has no attribute 'name'" |}.

(** [key in st.session_state] *)
Definition session_contains (key : string) : M bool := λ w,
  (Ok (match session_state w !! key with Some _ => true | None => false end), w).

(** [st.session_state.key = v] *)
Definition session_set (key : string) (v : value) : M unit := λ w,
  (Ok tt, mkWorld (fs w) (<[key := v]> (session_state w)) (screen w) (calls w) (log w)).

(** [st.session_state.key] *)
Definition session_get (key : string) : M value := λ w,
  match session_state w !! key with
  | Some v => (Ok v, w)
  | None => (Raise (AttributeError key), w)
  end.

(** [a and b] *)
Definition py_and (a b : M value) : M value :=
  x ← a; if truthy x then b else ret x.

(** The list a [for] statement walks when it is given [v]. *)
Definition iter_paths (v : value) : M (list path) :=
  match v with
  | VList l => ret l
  | VBool _ => raise (TypeError "'bool' object is not iterable")
  | VInt _ => raise (TypeError "'int' object is not iterable")
  | VStr _ => raise AttributeError_name
  end.

(** *** Widgets

    A widget returns the value the browser holds for its label, when that
    value is one the widget can produce, and its declared default
    otherwise.  The browser never commits a number outside
    [min_value .. max_value], nor an option that is not listed. *)

Definition st_text_input (ws : gmap string value) (label default : string) : string :=
  match ws !! label with
  | Some (VStr s) => s
  | _ => default
  end.

Definition st_number_input (ws : gmap string value) (label : string)
    (min_value max_value default : Z) : Z :=
  match ws !! label with
  | Some (VInt z) => if (min_value <=? z) && (z <=? max_value) then z else default
  | _ => default
  end.

Definition st_checkbox (ws : gmap string value) (label : string) (default : bool) : bool :=
  match ws !! label with
  | Some (VBool b) => b
  | _ => default
  end.

Definition st_button (ws : gmap string value) (label : string) : bool :=
  match ws !! label with
  | Some (VBool b) => b
  | _ => false
  end.

(** [st.selectbox] and [st.radio]: the browser holds the index chosen. *)
Definition st_selectbox (ws : gmap string value) (label : string)
    (options : list string) (index : nat) : string :=
  let default := List.nth index options "" in
  match ws !! label with
  | Some (VInt z) =>
      if (0 <=? z) && (z <? Z.of_nat (length options))
      then List.nth (Z.to_nat z) options default
      else default
  | _ => default
  end.

Definition st_radio (ws : gmap string value) (label : string) (options : list string) : string :=
  st_selectbox ws label options 0.

(** ** The script *)

Section Script.

Variable ext : externals.
Variable widgets : gmap string value.

(** [asyncio.run(handler.handle())]: the call is recorded, the handler's
    filesystem replaces the old one, and its exception, if any, is raised
    in the script. *)
Definition asyncio_run {C} (h : handler C) (config_obj : C) (call : handler_call) : M unit :=
  λ w, let '(f', r) := h config_obj (fs w) in
       (match r with None => Ok tt | Some e => Raise e end,
        mkWorld f' (session_state w) (screen w) (calls w ++ [(call, r)]) (log w)).

Definition Logger_error_call (msg : string) : M unit :=
  λ w, let '(f', r) := Logger_error ext msg (fs w) in
       match r with
       | None => (Ok tt, mkWorld f' (session_state w) (screen w) (calls w) (log w ++ [msg]))
       | Some e => (Raise e, mkWorld f' (session_state w) (screen w) (calls w) (log w))
       end.

Definition init_session_state : M unit :=
  b ← session_contains "analysis_running";
  (if negb b then session_set "analysis_running" (VBool false) else ret tt);;
  b ← session_contains "analysis_complete";
  (if negb b then session_set "analysis_complete" (VBool false) else ret tt);;
  b ← session_contains "generated_files";
  (if negb b then session_set "generated_files" (VList []) else ret tt).

Definition run_analysis (repo_path : path) (config_obj : AnalyzeHandlerConfig.t) : M unit :=
  asyncio_run (AnalyzeHandler ext) config_obj (CallAnalyze config_obj).

Definition run_readme_generation (repo_path : path) (config_obj : ReadmeHandlerConfig.t) : M unit :=
  asyncio_run (ReadmeHandler ext) config_obj (CallReadme config_obj).

Definition run_ai_rules_generation (repo_path : path) (config_obj : AIRulesHandlerConfig.t) : M unit :=
  asyncio_run (AIRulesHandler ext) config_obj (CallAIRules config_obj).

(** *** Analysis page *)

(** The body of the [for file_path in st.session_state.generated_files] loop. *)
Definition show_file (file_path : path) : M unit :=
  emit (st_expander ("📝 " +:+ name file_path));;
  content ← on_fs_raising (λ f, read_text f file_path);
  emit (st_markdown content);;
  emit (st_download_button "⬇️ Download" content (name file_path) "text/markdown").

(** The block under [# Display results if analysis is complete]. *)
Definition analyze_display : M unit :=
  shown ← py_and (session_get "analysis_complete") (session_get "generated_files");
  if truthy shown then
    emit (st_markdown "### 📄 Generated Analysis Files");;
    files ← session_get "generated_files";
    files ← iter_paths files;
    for_each files show_file
  else ret tt.

(** The body of the [try] statement. *)
Definition analyze_try (repo_path : string) (exclude_structure exclude_dependencies
    exclude_data_flow exclude_request_flow exclude_api : bool) (max_workers : Z) : M unit :=
  let config_obj :=
    {| AnalyzeHandlerConfig.repo_path := Path repo_path;
       AnalyzeHandlerConfig.exclude_code_structure := exclude_structure;
       AnalyzeHandlerConfig.exclude_dependencies := exclude_dependencies;
       AnalyzeHandlerConfig.exclude_data_flow := exclude_data_flow;
       AnalyzeHandlerConfig.exclude_request_flow := exclude_request_flow;
       AnalyzeHandlerConfig.exclude_api_analysis := exclude_api;
       AnalyzeHandlerConfig.max_workers := max_workers |} in
  run_analysis (Path repo_path) config_obj;;
  session_set "analysis_running" (VBool false);;
  session_set "analysis_complete" (VBool true);;
  (* Find generated files *)
  let docs_path := Path repo_path // ".ai" // "docs" in
  there ← on_fs_raising (λ f, path_exists f docs_path);
  (if there then
     found ← on_fs_raising (λ f, glob_md f docs_path);
     session_set "generated_files" (VList found)
   else ret tt);;
  emit (st_success "✅ Analysis completed successfully!").

Definition analyze_except (e : exn) : M unit :=
  session_set "analysis_running" (VBool false);;
  let error_msg := "❌ Analysis failed: " +:+ message e in
  emit (st_error error_msg);;
  try_except (Logger_error_call ("Analysis error: " +:+ message e))
    except_all (λ _, ret tt).

Definition analyze_page : M unit :=
  here ← on_fs Path_cwd;
  let repo_path := st_text_input widgets "Repository Path" (str here) in
  let max_workers := st_number_input widgets "Max Workers" 0 20 0 in
  let exclude_structure := st_checkbox widgets "Exclude Code Structure" false in
  let exclude_dependencies := st_checkbox widgets "Exclude Dependencies" false in
  let exclude_data_flow := st_checkbox widgets "Exclude Data Flow" false in
  let exclude_request_flow := st_checkbox widgets "Exclude Request Flow" false in
  let exclude_api := st_checkbox widgets "Exclude API Analysis" false in
  if st_button widgets "🚀 Start Analysis" then
    there ← on_fs_raising (λ f, path_exists f (Path repo_path));
    if negb there then
      emit (st_error ("❌ Repository path does not exist: " +:+ repo_path))
      (* return *)
    else
      session_set "analysis_running" (VBool true);;
      session_set "analysis_complete" (VBool false);;
      emit (st_spinner "🔍 Analyzing repository... This may take several minutes with local Ollama models.");;
      try_except
        (analyze_try repo_path exclude_structure exclude_dependencies
           exclude_data_flow exclude_request_flow exclude_api max_workers)
        except_Exception analyze_except;;
      analyze_display
  else analyze_display.

(** *** README page *)

(** The block under [# Display generated README]. *)
Definition readme_display (repo_path : string) : M unit :=
  let readme_path := Path repo_path // "README.md" in
  there ← on_fs_raising (λ f, path_exists f readme_path);
  if there then
    emit (st_markdown "### 📄 Generated README.md");;
    content ← on_fs_raising (λ f, read_text f readme_path);
    emit (st_markdown content);;
    emit (st_download_button "⬇️ Download README.md" content "README.md" "text/markdown")
  else ret tt.

(** The body of the [try] statement. *)
Definition readme_try (repo_path : string) (use_existing exclude_overview exclude_toc
    exclude_architecture exclude_c4 exclude_structure exclude_dependencies exclude_api
    exclude_dev_notes exclude_issues : bool) : M unit :=
  let config_obj :=
    {| ReadmeHandlerConfig.repo_path := Path repo_path;
       ReadmeHandlerConfig.use_existing_readme := use_existing;
       ReadmeHandlerConfig.exclude_project_overview := exclude_overview;
       ReadmeHandlerConfig.exclude_table_of_contents := exclude_toc;
       ReadmeHandlerConfig.exclude_architecture := exclude_architecture;
       ReadmeHandlerConfig.exclude_c4_model := exclude_c4;
       ReadmeHandlerConfig.exclude_repository_structure := exclude_structure;
       ReadmeHandlerConfig.exclude_dependencies_and_integration := exclude_dependencies;
       ReadmeHandlerConfig.exclude_api_documentation := exclude_api;
       ReadmeHandlerConfig.exclude_development_notes := exclude_dev_notes;
       ReadmeHandlerConfig.exclude_known_issues_and_limitations := exclude_issues;
       ReadmeHandlerConfig.exclude_additional_documentation := false |} in
  run_readme_generation (Path repo_path) config_obj;;
  emit (st_success "✅ README generated successfully!");;
  readme_display repo_path.

Definition readme_except (e : exn) : M unit :=
  let error_msg := "❌ README generation failed: " +:+ message e in
  emit (st_error error_msg);;
  try_except (Logger_error_call ("README generation error: " +:+ message e))
    except_all (λ _, ret tt).

Definition readme_page : M unit :=
  here ← on_fs Path_cwd;
  let repo_path := st_text_input widgets "Repository Path" (str here) in
  let use_existing := st_checkbox widgets "Use Existing README" false in
  let exclude_overview := st_checkbox widgets "Exclude Project Overview" false in
  let exclude_toc := st_checkbox widgets "Exclude Table of Contents" false in
  let exclude_architecture := st_checkbox widgets "Exclude Architecture" false in
  let exclude_c4 := st_checkbox widgets "Exclude C4 Model" false in
  let exclude_structure := st_checkbox widgets "Exclude Repository Structure" false in
  let exclude_dependencies := st_checkbox widgets "Exclude Dependencies" false in
  let exclude_api := st_checkbox widgets "Exclude API Documentation" false in
  let exclude_dev_notes := st_checkbox widgets "Exclude Development Notes" false in
  let exclude_issues := st_checkbox widgets "Exclude Known Issues" false in
  if st_button widgets "📝 Generate README" then
    there ← on_fs_raising (λ f, path_exists f (Path repo_path));
    if negb there then
      emit (st_error ("❌ Repository path does not exist: " +:+ repo_path))
      (* return *)
    else
      emit (st_spinner "📝 Generating README... This may take a few minutes.");;
      try_except
        (readme_try repo_path use_existing exclude_overview exclude_toc exclude_architecture
           exclude_c4 exclude_structure exclude_dependencies exclude_api exclude_dev_notes
           exclude_issues)
        except_Exception readme_except
  else ret tt.

(** *** AI rules page *)

(** The body of the [for rule_file in file_path.glob("*.md")] loop. *)
Definition show_rule (rule_file : path) : M unit :=
  emit (st_markdown ("**" +:+ name rule_file +:+ "**"));;
  text ← on_fs_raising (λ f, read_text f rule_file);
  emit (st_code text "markdown").

(** The body of the [for file_path, display_name in files_to_display] loop. *)
Definition ai_rules_display_one (item : path * string) : M unit :=
  let '(file_path, display_name) := item in
  there ← on_fs_raising (λ f, path_exists f file_path);
  if there then
    emit (st_expander ("📝 " +:+ display_name));;
    regular ← on_fs_raising (λ f, is_file f file_path);
    content ← (if regular then on_fs_raising (λ f, read_text f file_path) else ret "");
    directory ← on_fs_raising (λ f, is_dir f file_path);
    if directory then
      emit (st_info ("Directory created: " +:+ str file_path));;
      rule_files ← on_fs_raising (λ f, glob_md f file_path);
      for_each rule_files show_rule
    else
      emit (st_markdown content);;
      emit (st_download_button ("⬇️ Download " +:+ display_name) content display_name
              "text/markdown")
  else ret tt.

(** [files_to_display], given [Path(repo_path)]. *)
Definition files_to_display (repo : path) : list (path * string) :=
  [ (repo // "CLAUDE.md", "CLAUDE.md");
    (repo // "AGENTS.md", "AGENTS.md");
    (repo // ".cursor" // "rules", "Cursor Rules") ].

(** The block under [# Display generated files]. *)
Definition ai_rules_display (repo_path : string) : M unit :=
  emit (st_markdown "### 📄 Generated Files");;
  for_each (files_to_display (Path repo_path)) ai_rules_display_one.

(** The body of the [try] statement. *)
Definition ai_rules_try (repo_path : string) (skip_claude skip_agents skip_cursor : bool)
    (detail_level : string) (max_claude_lines max_agents_lines : Z) : M unit :=
  let config_obj :=
    {| AIRulesHandlerConfig.repo_path := Path repo_path;
       AIRulesHandlerConfig.skip_existing_claude_md := skip_claude;
       AIRulesHandlerConfig.skip_existing_agents_md := skip_agents;
       AIRulesHandlerConfig.skip_existing_cursor_rules := skip_cursor;
       AIRulesHandlerConfig.detail_level := detail_level;
       AIRulesHandlerConfig.max_claude_lines := max_claude_lines;
       AIRulesHandlerConfig.max_agents_lines := max_agents_lines |} in
  run_ai_rules_generation (Path repo_path) config_obj;;
  emit (st_success "✅ AI rules generated successfully!");;
  ai_rules_display repo_path.

Definition ai_rules_except (e : exn) : M unit :=
  let error_msg := "❌ AI rules generation failed: " +:+ message e in
  emit (st_error error_msg);;
  try_except (Logger_error_call ("AI rules generation error: " +:+ message e))
    except_all (λ _, ret tt).

Definition ai_rules_page : M unit :=
  here ← on_fs Path_cwd;
  let repo_path := st_text_input widgets "Repository Path" (str here) in
  let skip_claude := st_checkbox widgets "Skip Existing CLAUDE.md" false in
  let skip_agents := st_checkbox widgets "Skip Existing AGENTS.md" false in
  let skip_cursor := st_checkbox widgets "Skip Existing Cursor Rules" false in
  let detail_level :=
    st_selectbox widgets "Detail Level" ["minimal"; "standard"; "comprehensive"] 1 in
  let max_claude_lines := st_number_input widgets "Max CLAUDE.md Lines" 100 2000 500 in
  let max_agents_lines := st_number_input widgets "Max AGENTS.md Lines" 50 500 150 in
  if st_button widgets "🚀 Generate AI Rules" then
    there ← on_fs_raising (λ f, path_exists f (Path repo_path));
    if negb there then
      emit (st_error ("❌ Repository path does not exist: " +:+ repo_path))
      (* return *)
    else
      emit (st_spinner "🤖 Generating AI rules... This may take a few minutes.");;
      try_except
        (ai_rules_try repo_path skip_claude skip_agents skip_cursor detail_level
           max_claude_lines max_agents_lines)
        except_Exception ai_rules_except
  else ret tt.

(** *** About page and routing *)

(** The About page is static markup. *)
Definition about_page : M unit := ret tt.

(** The [if] chain under [# Route to selected page]. *)
Definition route (page : string) : M unit :=
  if String.eqb page "📊 Analysis" then analyze_page
  else if String.eqb page "📖 README" then readme_page
  else if String.eqb page "🤖 AI Rules" then ai_rules_page
  else if String.eqb page "ℹ️ About" then about_page
  else ret tt.

Definition main : M unit :=
  init_session_state;;
  let page :=
    st_radio widgets "Navigation" ["📊 Analysis"; "📖 README"; "🤖 AI Rules"; "ℹ️ About"] in
  route page.

End Script.

(** One call of [main()] for one browser interaction, on an empty page.
    (The statements at module level that precede it, which create the
    logger's directory and configure the page, are not part of it.) *)
Definition rerun (ext : externals) (widgets : gmap string value) (w : world)
    : result unit * world :=
  main ext widgets (mkWorld (fs w) (session_state w) [] (calls w) (log w)).

(** ** Observing one invocation *)

(** What a computation adds to the screen and to the record of handler
    calls when it is run in [w]. *)
Definition new_screen {A} (m : M A) (w : world) : list element :=
  drop (length (screen w)) (screen (m w).2).

Definition new_calls {A} (m : M A) (w : world) : list (handler_call * option exn) :=
  drop (length (calls w)) (calls (m w).2).

(** World updates, for stating what a run leaves behind. *)
Definition show (es : list element) (w : world) : world :=
  mkWorld (fs w) (session_state w) (screen w ++ es) (calls w) (log w).

Definition called (f' : filesystem) (c : handler_call * option exn) (w : world) : world :=
  mkWorld f' (session_state w) (screen w) (calls w ++ [c]) (log w).

Definition with_session (s : gmap string value) (w : world) : world :=
  mkWorld (fs w) s (screen w) (calls w) (log w).

(** The text in the [Repository Path] field. *)
Definition repo_path_field (widgets : gmap string value) (w : world) : string :=
  st_text_input widgets "Repository Path" (str (Path_cwd (fs w))).

(** A session whose [analysis_running] flag is [False]. *)
Definition idle (w : world) : Prop :=
  session_state w !! "analysis_running" = Some (VBool false).

(** The three page controllers that invoke a handler, and the texts that
    tell them apart. *)
Inductive page := Analysis | README | AI_Rules.

Definition controller (p : page) : externals → gmap string value → M unit :=
  match p with
  | Analysis => analyze_page
  | README => readme_page
  | AI_Rules => ai_rules_page
  end.

Definition submit_button (p : page) : string :=
  match p with
  | Analysis => "🚀 Start Analysis"
  | README => "📝 Generate README"
  | AI_Rules => "🚀 Generate AI Rules"
  end.

Definition spinner_text (p : page) : string :=
  match p with
  | Analysis => "🔍 Analyzing repository... This may take several minutes with local Ollama models."
  | README => "📝 Generating README... This may take a few minutes."
  | AI_Rules => "🤖 Generating AI rules... This may take a few minutes."
  end.

Definition failure_prefix (p : page) : string :=
  match p with
  | Analysis => "❌ Analysis failed: "
  | README => "❌ README generation failed: "
  | AI_Rules => "❌ AI rules generation failed: "
  end.

Definition log_prefix (p : page) : string :=
  match p with
  | Analysis => "Analysis error: "
  | README => "README generation error: "
  | AI_Rules => "AI rules generation error: "
  end.

Definition success_text (p : page) : string :=
  match p with
  | Analysis => "✅ Analysis completed successfully!"
  | README => "✅ README generated successfully!"
  | AI_Rules => "✅ AI rules generated successfully!"
  end.

Definition path_error (repo_path : string) : element :=
  st_error ("❌ Repository path does not exist: " +:+ repo_path).

(** The configuration each page builds from the widget values, given the
    text of the [Repository Path] field. *)
Definition analyze_form (ws : gmap string value) (repo_path : string)
    : AnalyzeHandlerConfig.t :=
  {| AnalyzeHandlerConfig.repo_path := Path repo_path;
     AnalyzeHandlerConfig.exclude_code_structure := st_checkbox ws "Exclude Code Structure" false;
     AnalyzeHandlerConfig.exclude_dependencies := st_checkbox ws "Exclude Dependencies" false;
     AnalyzeHandlerConfig.exclude_data_flow := st_checkbox ws "Exclude Data Flow" false;
     AnalyzeHandlerConfig.exclude_request_flow := st_checkbox ws "Exclude Request Flow" false;
     AnalyzeHandlerConfig.exclude_api_analysis := st_checkbox ws "Exclude API Analysis" false;
     AnalyzeHandlerConfig.max_workers := st_number_input ws "Max Workers" 0 20 0 |}.

Definition readme_form (ws : gmap string value) (repo_path : string)
    : ReadmeHandlerConfig.t :=
  {| ReadmeHandlerConfig.repo_path := Path repo_path;
     ReadmeHandlerConfig.use_existing_readme := st_checkbox ws "Use Existing README" false;
     ReadmeHandlerConfig.exclude_project_overview :=
       st_checkbox ws "Exclude Project Overview" false;
     ReadmeHandlerConfig.exclude_table_of_contents :=
       st_checkbox ws "Exclude Table of Contents" false;
     ReadmeHandlerConfig.exclude_architecture := st_checkbox ws "Exclude Architecture" false;
     ReadmeHandlerConfig.exclude_c4_model := st_checkbox ws "Exclude C4 Model" false;
     ReadmeHandlerConfig.exclude_repository_structure :=
       st_checkbox ws "Exclude Repository Structure" false;
     ReadmeHandlerConfig.exclude_dependencies_and_integration :=
       st_checkbox ws "Exclude Dependencies" false;
     ReadmeHandlerConfig.exclude_api_documentation :=
       st_checkbox ws "Exclude API Documentation" false;
     ReadmeHandlerConfig.exclude_development_notes :=
       st_checkbox ws "Exclude Development Notes" false;
     ReadmeHandlerConfig.exclude_known_issues_and_limitations :=
       st_checkbox ws "Exclude Known Issues" false;
     ReadmeHandlerConfig.exclude_additional_documentation := false |}.

Definition ai_rules_form (ws : gmap string value) (repo_path : string)
    : AIRulesHandlerConfig.t :=
  {| AIRulesHandlerConfig.repo_path := Path repo_path;
     AIRulesHandlerConfig.skip_existing_claude_md :=
       st_checkbox ws "Skip Existing CLAUDE.md" false;
     AIRulesHandlerConfig.skip_existing_agents_md :=
       st_checkbox ws "Skip Existing AGENTS.md" false;
     AIRulesHandlerConfig.skip_existing_cursor_rules :=
       st_checkbox ws "Skip Existing Cursor Rules" false;
     AIRulesHandlerConfig.detail_level :=
       st_selectbox ws "Detail Level" ["minimal"; "standard"; "comprehensive"] 1;
     AIRulesHandlerConfig.max_claude_lines :=
       st_number_input ws "Max CLAUDE.md Lines" 100 2000 500;
     AIRulesHandlerConfig.max_agents_lines :=
       st_number_input ws "Max AGENTS.md Lines" 50 500 150 |}.

Definition form_call (p : page) (ws : gmap string value) (repo_path : string) : handler_call :=
  match p with
  | Analysis => CallAnalyze (analyze_form ws repo_path)
  | README => CallReadme (readme_form ws repo_path)
  | AI_Rules => CallAIRules (ai_rules_form ws repo_path)
  end.

(** What the handler of page [p] does with the submitted form in [w]. *)
Definition handler_outcome (p : page) (ext : externals) (ws : gmap string value)
    (w : world) : filesystem * option exn :=
  match p with
  | Analysis => AnalyzeHandler ext (analyze_form ws (repo_path_field ws w)) (fs w)
  | README => ReadmeHandler ext (readme_form ws (repo_path_field ws w)) (fs w)
  | AI_Rules => AIRulesHandler ext (ai_rules_form ws (repo_path_field ws w)) (fs w)
  end.

(** The filesystem the handler call of page [p] leaves behind. *)
Definition after_call (p : page) (ext : externals) (ws : gmap string value)
    (w : world) : filesystem :=
  (handler_outcome p ext ws w).1.

(** Whether [p.exists()] returned [True]. *)
Definition path_found (f : filesystem) (p : path) : bool :=
  match path_exists f p with
  | Done true => true
  | _ => false
  end.

(** A computation leaves a component of the world alone. *)
Definition preserves {X A} (proj : world → X) (m : M A) : Prop :=
  ∀ w, proj (m w).2 = proj w.

(** ** What the blocks of the script leave behind *)

(** The session state after [init_session_state]: an attribute that is
    missing gets its initial value. *)
Definition initial (key : string) (v : value) (s : gmap string value) : gmap string value :=
  match s !! key with
  | Some _ => s
  | None => <[key := v]> s
  end.

Definition initialised (s : gmap string value) : gmap string value :=
  initial "generated_files" (VList [])
    (initial "analysis_complete" (VBool false)
       (initial "analysis_running" (VBool false) s)).

(** The [except] blocks: the message is shown, the log write is attempted,
    which may change the filesystem, and whatever the logger raises is
    dropped. *)
Definition after_failure (p : page) (ext : externals) (e : exn) (w : world) : world :=
  let written := Logger_error ext (log_prefix p +:+ message e) (fs w) in
  mkWorld written.1 (session_state w)
    (screen w ++ [st_error (failure_prefix p +:+ message e)]) (calls w)
    (match written.2 with
     | None => log w ++ [log_prefix p +:+ message e]
     | Some _ => log w
     end).

(** The session state on entry to the [try] block of the Analysis page, and
    once the handler has returned. *)
Definition started (s : gmap string value) : gmap string value :=
  <["analysis_complete" := VBool false]> (<["analysis_running" := VBool true]> s).

Definition finished (s : gmap string value) : gmap string value :=
  <["analysis_complete" := VBool true]> (<["analysis_running" := VBool false]> s).

(** [# Find generated files]: the [*.md] entries of the output directory,
    nothing when [exists()] says it is not there, or the failure of one of
    the two queries. *)
Definition scan (repo_path : string) (f : filesystem) : outcome (option (list path)) :=
  let docs_path := Path repo_path // ".ai" // "docs" in
  match path_exists f docs_path with
  | Failed text => Failed text
  | Done false => Done None
  | Done true =>
      match glob_md f docs_path with
      | Failed text => Failed text
      | Done found => Done (Some found)
      end
  end.

(** [generated_files] is overwritten only when the scan found the output
    directory. *)
Definition stored (found : option (list path)) (s : gmap string value)
    : gmap string value :=
  match found with
  | Some files => <["generated_files" := VList files]> s
  | None => s
  end.

(** What the display block renders for one generated file. *)
Definition file_view (file_path : path) (content : string) : list element :=
  [ st_expander ("📝 " +:+ name file_path);
    st_markdown content;
    st_download_button "⬇️ Download" content (name file_path) "text/markdown" ].

(** The text of each path of a list, when every one of them reads as
    text. *)
Fixpoint read_all (f : filesystem) (l : list path) : option (list (path * string)) :=
  match l with
  | [] => Some []
  | p :: l' =>
      match read_text f p, read_all f l' with
      | Done content, Some rest => Some ((p, content) :: rest)
      | _, _ => None
      end
  end.

(** What the display block renders for one rule file of a directory. *)
Definition rule_view (rule_file : path) (text : string) : list element :=
  [ st_markdown ("**" +:+ name rule_file +:+ "**"); st_code text "markdown" ].

(** What a block of display code puts on the screen, and the text of the
    exception that ended it, if one did. *)
Definition rendering : Type := list element * option string.

Definition render (r : rendering) (w : world) : result unit * world :=
  (match r.2 with
   | None => Ok tt
   | Some text => Raise (library_error text)
   end, show r.1 w).

(** A [for] loop over display code: it stops at the first exception. *)
Fixpoint render_each {A} (one : A → rendering) (l : list A) : rendering :=
  match l with
  | [] => ([], None)
  | x :: l' =>
      match (one x).2 with
      | None => ((one x).1 ++ (render_each one l').1, (render_each one l').2)
      | Some text => ((one x).1, Some text)
      end
  end.

(** The README block on filesystem [f]. *)
Definition readme_rendering (f : filesystem) (repo_path : string) : rendering :=
  let readme_path := Path repo_path // "README.md" in
  match path_exists f readme_path with
  | Failed text => ([], Some text)
  | Done false => ([], None)
  | Done true =>
      match read_text f readme_path with
      | Failed text => ([st_markdown "### 📄 Generated README.md"], Some text)
      | Done content =>
          ([ st_markdown "### 📄 Generated README.md";
             st_markdown content;
             st_download_button "⬇️ Download README.md" content "README.md"
               "text/markdown" ], None)
      end
  end.

(** One rule file of a directory, and one artifact location, on filesystem
    [f]. *)
Definition rule_rendering (f : filesystem) (rule_file : path) : rendering :=
  match read_text f rule_file with
  | Failed text => ([st_markdown ("**" +:+ name rule_file +:+ "**")], Some text)
  | Done text => (rule_view rule_file text, None)
  end.

Definition artifact_rendering (f : filesystem) (item : path * string) : rendering :=
  let '(file_path, display_name) := item in
  let expander := st_expander ("📝 " +:+ display_name) in
  let notice := st_info ("Directory created: " +:+ str file_path) in
  match path_exists f file_path with
  | Failed text => ([], Some text)
  | Done false => ([], None)
  | Done true =>
      match is_file f file_path with
      | Failed text => ([expander], Some text)
      | Done regular =>
          match (if regular then read_text f file_path else Done "") with
          | Failed text => ([expander], Some text)
          | Done content =>
              match is_dir f file_path with
              | Failed text => ([expander], Some text)
              | Done true =>
                  match glob_md f file_path with
                  | Failed text => ([expander; notice], Some text)
                  | Done rule_files =>
                      ([expander; notice] ++ (render_each (rule_rendering f) rule_files).1,
                       (render_each (rule_rendering f) rule_files).2)
                  end
              | Done false =>
                  ([ expander;
                     st_markdown content;
                     st_download_button ("⬇️ Download " +:+ display_name) content
                       display_name "text/markdown" ], None)
              end
          end
      end
  end.

(** What the display block renders for one artifact location. *)
Definition artifact_view (f : filesystem) (item : path * string) : list element :=
  (artifact_rendering f item).1.

(** Rendering the location [p] raises nothing: every query the block makes
    about [p] answers, a regular file at [p] reads as text, and so does
    every [*.md] entry when [p] is a directory. *)
Definition readable (f : filesystem) (p : path) : bool :=
  match (artifact_rendering f (p, "")).2 with
  | None => true
  | Some _ => false
  end.

(** The AI rules block on filesystem [f]. *)
Definition ai_rules_rendering (f : filesystem) (repo_path : string) : rendering :=
  let shown := render_each (artifact_rendering f) (files_to_display (Path repo_path)) in
  (st_markdown "### 📄 Generated Files" :: shown.1, shown.2).

(** What follows the handler call in the [try] block of the README and AI
    rules pages. *)
Definition results_rendering (p : page) (f : filesystem) (repo_path : string) : rendering :=
  match p with
  | Analysis => ([], None)
  | README => readme_rendering f repo_path
  | AI_Rules => ai_rules_rendering f repo_path
  end.

(** The session state a page leaves behind when its handler raised. *)
Definition interrupted_session (p : page) (s : gmap string value) : gmap string value :=
  match p with
  | Analysis => started s
  | _ => s
  end.

Definition failed_session (p : page) (s : gmap string value) : gmap string value :=
  match p with
  | Analysis => <["analysis_running" := VBool false]> (started s)
  | _ => s
  end.

(** ** Scenarios *)

Module Scenario.

(** Three repositories under [/srv]; the script runs in [/srv/alpha].  In
    [/srv/delta] two files hold bytes that do not decode. *)
Definition undecodable : outcome string :=
  Failed "'utf-8' codec can't decode byte 0xff in position 0: invalid start byte".

Definition tree : list (string * node) :=
  [ ("srv", Dir
      [ ("alpha", Dir
          [ (".ai", Dir [ ("docs", Dir [ ("structure.md", File (Done "# Structure"));
                                         ("notes.txt", File (Done "scratch")) ]) ]);
            ("README.md", File (Done "# Alpha"));
            ("CLAUDE.md", File (Done "# Claude"));
            (".cursor", Dir [ ("rules", Dir [ ("style.md", File (Done "Use tabs")) ]) ]) ]);
        ("beta", Dir
          [ ("README.md", Dir []);
            ("CLAUDE.md", Dir [ ("draft.md", Dir []) ]);
            ("AGENTS.md", File (Done "# Agents")) ]);
        ("delta", Dir
          [ ("README.md", File undecodable);
            ("CLAUDE.md", File undecodable);
            ("AGENTS.md", File (Done "# Agents")) ]) ]) ].

Definition disk : filesystem := disk_of tree ["srv"; "alpha"].

(** A name of 256 bytes, one more than a directory entry can have. *)
Definition long_name : string := String.concat "" (List.repeat "a" 256).

(** The disk once the directory [/srv/alpha/.ai] may no longer be searched:
    every query below it fails. *)
Definition below_ai (p : path) : bool :=
  match parts p with
  | "srv" :: "alpha" :: ".ai" :: _ :: _ => absolute p
  | _ => false
  end.

Definition denied {A} (p : path) (o : outcome A) : outcome A :=
  if below_ai p then Failed (strerror "13" "Permission denied" p) else o.

Definition locked : filesystem :=
  {| cwd := cwd disk;
     path_exists := λ p, denied p (path_exists disk p);
     is_file := λ p, denied p (is_file disk p);
     is_dir := λ p, denied p (is_dir disk p);
     glob_md := λ p, denied p (glob_md disk p);
     read_text := λ p, denied p (read_text disk p) |}.

(** A handler that returns without touching the disk, one that raises, and
    one that returns after the output directory was locked. *)
Definition quiet {C} : handler C := λ _ f, (f, None).
Definition failing {C} (e : exn) : handler C := λ _ f, (f, Some e).

Definition RuntimeError : exn := {| is_Exception := true; message := "model unavailable" |}.
Definition OSError : exn := {| is_Exception := true; message := "disk full" |}.
Definition SystemExit : exn := {| is_Exception := false; message := "1" |}.

(** A logger that accepts every message, and one that raises. *)
Definition accepting : string → filesystem → filesystem * option exn := λ _ f, (f, None).
Definition refusing : string → filesystem → filesystem * option exn :=
  λ _ f, (f, Some OSError).

Definition calm : externals := mkExt quiet quiet quiet accepting.
Definition broken : externals :=
  mkExt (failing RuntimeError) (failing RuntimeError) (failing RuntimeError) refusing.
Definition interrupted : externals :=
  mkExt (failing SystemExit) quiet quiet accepting.

(** A new session, and the same session once [init_session_state] has run. *)
Definition fresh : world := mkWorld disk ∅ [] [] [].
Definition ready : world :=
  mkWorld disk
    (<["generated_files" := VList []]>
       (<["analysis_complete" := VBool false]> (<["analysis_running" := VBool false]> ∅)))
    [] [] [].

(** Widget stores: a pressed button, a typed repository path, a page chosen
    in the sidebar. *)
Definition press (label : string) (ws : gmap string value) : gmap string value :=
  <[label := VBool true]> ws.
Definition type_path (text : string) (ws : gmap string value) : gmap string value :=
  <["Repository Path" := VStr text]> ws.
Definition navigate (index : Z) (ws : gmap string value) : gmap string value :=
  <["Navigation" := VInt index]> ws.

End Scenario.

(** ** The model at work *)

Example Path_normalises : str (Path "/srv//alpha/./docs/") = "/srv/alpha/docs".
Proof. reflexivity. Qed.

Example Path_relative : str (Path "alpha/docs") = "alpha/docs" ∧ str (Path "") = ".".
Proof. by split. Qed.

Example Path_two_slashes :
  str (Path "//srv/alpha") = "//srv/alpha" ∧ str (Path "///srv/alpha") = "/srv/alpha" ∧
  str (Path "//srv/alpha" // "README.md") = "//srv/alpha/README.md".
Proof. by repeat split. Qed.

Example stat_parent :
  stat Scenario.tree ["srv"; "alpha"] (Path "../beta/AGENTS.md") = Found (File (Done "# Agents")).
Proof. reflexivity. Qed.

Example exists_two_slashes :
  path_exists Scenario.disk (Path "//srv/alpha") = Done true.
Proof. reflexivity. Qed.

Example exists_below_a_file :
  path_exists Scenario.disk (Path "/srv/alpha/README.md/x") = Done false ∧
  read_text Scenario.disk (Path "/srv/alpha/README.md/x") =
    Failed "[Errno 20] Not a directory: '/srv/alpha/README.md/x'".
Proof. by split. Qed.

Example exists_long_name :
  path_exists Scenario.disk (Path "/srv" // Scenario.long_name) =
    Failed ("[Errno 36] File name too long: '/srv/" +:+ Scenario.long_name +:+ "'").
Proof. vm_compute. reflexivity. Qed.

Example glob_md_skips_other_files :
  glob_md Scenario.disk (Path "/srv/alpha/.ai/docs") =
    Done [Path "/srv/alpha/.ai/docs/structure.md"].
Proof. reflexivity. Qed.

Example glob_md_lists_directories :
  glob_md Scenario.disk (Path "/srv/beta/CLAUDE.md") =
    Done [Path "/srv/beta/CLAUDE.md/draft.md"].
Proof. reflexivity. Qed.

Example read_text_of_directory :
  read_text Scenario.disk (Path "/srv/beta/CLAUDE.md") =
    Failed "[Errno 21] Is a directory: '/srv/beta/CLAUDE.md'".
Proof. reflexivity. Qed.

Example read_text_undecodable :
  is_file Scenario.disk (Path "/srv/delta/CLAUDE.md") = Done true ∧
  read_text Scenario.disk (Path "/srv/delta/CLAUDE.md") = Scenario.undecodable.
Proof. by split. Qed.

Example locked_output_directory :
  path_exists Scenario.locked (Path "/srv/alpha/.ai") = Done true ∧
  path_exists Scenario.locked (Path "/srv/alpha/.ai/docs") =
    Failed "[Errno 13] Permission denied: '/srv/alpha/.ai/docs'".
Proof. by split. Qed.

Example number_input_out_of_range :
  st_number_input (<["Max Workers" := VInt 99]> ∅) "Max Workers" 0 20 0 = 0 ∧
  st_number_input (<["Max Workers" := VInt 8]> ∅) "Max Workers" 0 20 0 = 8.
Proof. by vm_compute. Qed.

Example selectbox_default :
  st_selectbox ∅ "Detail Level" ["minimal"; "standard"; "comprehensive"] 1 = "standard" ∧
  st_selectbox (<["Detail Level" := VInt 2]> ∅) "Detail Level"
    ["minimal"; "standard"; "comprehensive"] 1 = "comprehensive".
Proof. by vm_compute. Qed.

(** A new session, one run of the script with nothing pressed. *)
Example first_run :
  rerun Scenario.calm ∅ Scenario.fresh = (Ok tt, Scenario.ready).
Proof. vm_compute. reflexivity. Qed.

(** ** Frame properties: what a computation leaves alone *)

Section Frame.

Context {X : Type} (proj : world → X).

Lemma preserves_ret {A} (a : A) : preserves proj (ret a).
Proof. by intros w. Qed.

Lemma preserves_raise {A} (e : exn) : preserves proj (raise (A:=A) e).
Proof. by intros w. Qed.

Lemma preserves_bind {A B} (m : M A) (k : A → M B) :
  preserves proj m → (∀ a, preserves proj (k a)) → preserves proj (bind m k).
Proof.
  intros Hm Hk w. unfold bind. specialize (Hm w).
  destruct (m w) as [[a|e] w1]; simpl in *; [|done].
  by rewrite Hk.
Qed.

Lemma preserves_try_except {A} (body : M A) caught (on_exn : exn → M A) :
  preserves proj body → (∀ e, preserves proj (on_exn e)) →
  preserves proj (try_except body caught on_exn).
Proof.
  intros Hb Hh w. unfold try_except. specialize (Hb w).
  destruct (body w) as [[a|e] w1]; simpl in *; [done|].
  destruct (caught e); [|done]. by rewrite Hh.
Qed.

Lemma preserves_for_each {A} (l : list A) (body : A → M unit) :
  (∀ a, preserves proj (body a)) → preserves proj (for_each l body).
Proof.
  intros Hb. induction l as [|a l IH]; simpl.
  - apply preserves_ret.
  - apply preserves_bind; [apply Hb | intros _; apply IH].
Qed.

Lemma preserves_on_fs {A} (op : filesystem → A) : preserves proj (on_fs op).
Proof. by intros w. Qed.

Lemma preserves_on_fs_raising {A} (op : filesystem → outcome A) :
  preserves proj (on_fs_raising op).
Proof. by intros w. Qed.

Lemma preserves_session_contains key : preserves proj (session_contains key).
Proof. by intros w. Qed.

Lemma preserves_session_get key : preserves proj (session_get key).
Proof. intros w. unfold session_get. by destruct (session_state w !! key). Qed.

Lemma preserves_iter_paths v : preserves proj (iter_paths v).
Proof. by destruct v. Qed.

Lemma preserves_if {A} (b : bool) (m1 m2 : M A) :
  preserves proj m1 → preserves proj m2 → preserves proj (if b then m1 else m2).
Proof. by destruct b. Qed.

End Frame.

Lemma emit_session e : preserves session_state (emit e).
Proof. by intros w. Qed.

Lemma emit_calls e : preserves calls (emit e).
Proof. by intros w. Qed.

Lemma emit_fs e : preserves fs (emit e).
Proof. by intros w. Qed.

Lemma emit_log e : preserves log (emit e).
Proof. by intros w. Qed.

Lemma session_set_calls key v : preserves calls (session_set key v).
Proof. by intros w. Qed.

Lemma session_set_fs key v : preserves fs (session_set key v).
Proof. by intros w. Qed.

Lemma session_set_log key v : preserves log (session_set key v).
Proof. by intros w. Qed.

Lemma asyncio_run_session {C} (h : handler C) c call :
  preserves session_state (asyncio_run h c call).
Proof. intros w. unfold asyncio_run. by destruct (h c (fs w)). Qed.

Lemma Logger_error_session ext msg : preserves session_state (Logger_error_call ext msg).
Proof.
  intros w. unfold Logger_error_call. by destruct (Logger_error ext msg (fs w)) as [f' [e|]].
Qed.

Lemma Logger_error_calls ext msg : preserves calls (Logger_error_call ext msg).
Proof.
  intros w. unfold Logger_error_call. by destruct (Logger_error ext msg (fs w)) as [f' [e|]].
Qed.

Create HintDb frame.
#[export] Hint Resolve preserves_ret preserves_raise preserves_on_fs preserves_on_fs_raising
  preserves_session_contains preserves_session_get preserves_iter_paths
  emit_session emit_calls emit_fs emit_log session_set_calls session_set_fs session_set_log
  asyncio_run_session Logger_error_session Logger_error_calls : frame.

(** Splits a frame goal along the structure of the script. *)
Ltac frame :=
  repeat first
    [ progress eauto with frame
    | apply preserves_bind; [|intros ?]
    | apply preserves_try_except; [|intros ?]
    | apply preserves_for_each; intros ?
    | apply preserves_if
    | match goal with |- preserves _ (let '(_, _) := ?x in _) => destruct x end
    | match goal with |- preserves _ (match ?x with _ => _ end) => destruct x end ].

(** ** The README and AI rules pages never write the session state *)

Lemma readme_page_session ext ws : preserves session_state (readme_page ext ws).
Proof.
  unfold readme_page, readme_try, readme_display, readme_except, run_readme_generation.
  frame.
Qed.

Lemma ai_rules_page_session ext ws : preserves session_state (ai_rules_page ext ws).
Proof.
  unfold ai_rules_page, ai_rules_try, ai_rules_display, ai_rules_except,
    run_ai_rules_generation, ai_rules_display_one, show_rule.
  frame.
Qed.

(** ** The check of the repository path *)

Lemma path_found_true f p : path_found f p = true ↔ path_exists f p = Done true.
Proof. unfold path_found. by destruct (path_exists f p) as [[]|]. Qed.

Lemma analyze_page_nonexistent ext ws w :
  st_button ws "🚀 Start Analysis" = true →
  path_exists (fs w) (Path (repo_path_field ws w)) = Done false →
  analyze_page ext ws w = (Ok tt, show [path_error (repo_path_field ws w)] w).
Proof.
  intros Hb He. unfold analyze_page, bind, on_fs, on_fs_raising, repo_path_field in *.
  rewrite Hb. simpl. rewrite He. reflexivity.
Qed.

Lemma readme_page_nonexistent ext ws w :
  st_button ws "📝 Generate README" = true →
  path_exists (fs w) (Path (repo_path_field ws w)) = Done false →
  readme_page ext ws w = (Ok tt, show [path_error (repo_path_field ws w)] w).
Proof.
  intros Hb He. unfold readme_page, bind, on_fs, on_fs_raising, repo_path_field in *.
  rewrite Hb. simpl. rewrite He. reflexivity.
Qed.

Lemma ai_rules_page_nonexistent ext ws w :
  st_button ws "🚀 Generate AI Rules" = true →
  path_exists (fs w) (Path (repo_path_field ws w)) = Done false →
  ai_rules_page ext ws w = (Ok tt, show [path_error (repo_path_field ws w)] w).
Proof.
  intros Hb He. unfold ai_rules_page, bind, on_fs, on_fs_raising, repo_path_field in *.
  rewrite Hb. simpl. rewrite He. reflexivity.
Qed.

(** The check is made outside the [try] statement: when [exists()] raises,
    the exception leaves the page with nothing shown. *)
Lemma analyze_page_unchecked ext ws w text :
  st_button ws "🚀 Start Analysis" = true →
  path_exists (fs w) (Path (repo_path_field ws w)) = Failed text →
  analyze_page ext ws w = (Raise (library_error text), w).
Proof.
  intros Hb He. unfold analyze_page, bind, on_fs, on_fs_raising, repo_path_field in *.
  rewrite Hb. simpl. rewrite He. reflexivity.
Qed.

Lemma readme_page_unchecked ext ws w text :
  st_button ws "📝 Generate README" = true →
  path_exists (fs w) (Path (repo_path_field ws w)) = Failed text →
  readme_page ext ws w = (Raise (library_error text), w).
Proof.
  intros Hb He. unfold readme_page, bind, on_fs, on_fs_raising, repo_path_field in *.
  rewrite Hb. simpl. rewrite He. reflexivity.
Qed.

Lemma ai_rules_page_unchecked ext ws w text :
  st_button ws "🚀 Generate AI Rules" = true →
  path_exists (fs w) (Path (repo_path_field ws w)) = Failed text →
  ai_rules_page ext ws w = (Raise (library_error text), w).
Proof.
  intros Hb He. unfold ai_rules_page, bind, on_fs, on_fs_raising, repo_path_field in *.
  rewrite Hb. simpl. rewrite He. reflexivity.
Qed.

Lemma controller_nonexistent p ext ws w :
  st_button ws (submit_button p) = true →
  path_exists (fs w) (Path (repo_path_field ws w)) = Done false →
  controller p ext ws w = (Ok tt, show [path_error (repo_path_field ws w)] w).
Proof.
  destruct p; [apply analyze_page_nonexistent | apply readme_page_nonexistent
              | apply ai_rules_page_nonexistent].
Qed.

Lemma controller_unchecked p ext ws w text :
  st_button ws (submit_button p) = true →
  path_exists (fs w) (Path (repo_path_field ws w)) = Failed text →
  controller p ext ws w = (Raise (library_error text), w).
Proof.
  destruct p; [apply analyze_page_unchecked | apply readme_page_unchecked
              | apply ai_rules_page_unchecked].
Qed.

(** ** Running the blocks of the script *)

Lemma show_show es es' w : show es' (show es w) = show (es ++ es') w.
Proof. unfold show; simpl. by rewrite app_assoc. Qed.

Lemma show_nil w : show [] w = w.
Proof. unfold show. rewrite app_nil_r. by destruct w. Qed.

Lemma drop_own_length {A} (l k : list A) : drop (length l) (l ++ k) = k.
Proof. by rewrite drop_app_length. Qed.

Lemma asyncio_run_run {C} (h : handler C) c call w :
  asyncio_run h c call w =
    (match (h c (fs w)).2 with None => Ok tt | Some e => Raise e end,
     called (h c (fs w)).1 (call, (h c (fs w)).2) w).
Proof. unfold asyncio_run, called. by destruct (h c (fs w)). Qed.

Lemma readme_except_run ext e w :
  readme_except ext e w = (Ok tt, after_failure README ext e w).
Proof.
  unfold readme_except, after_failure, bind, emit, try_except, Logger_error_call; simpl.
  by destruct (Logger_error ext _ _) as [f' [x|]].
Qed.

Lemma ai_rules_except_run ext e w :
  ai_rules_except ext e w = (Ok tt, after_failure AI_Rules ext e w).
Proof.
  unfold ai_rules_except, after_failure, bind, emit, try_except, Logger_error_call; simpl.
  by destruct (Logger_error ext _ _) as [f' [x|]].
Qed.

Lemma analyze_except_run ext e w :
  analyze_except ext e w =
    (Ok tt, after_failure Analysis ext e
              (with_session (<["analysis_running" := VBool false]> (session_state w)) w)).
Proof.
  unfold analyze_except, after_failure, bind, emit, try_except, Logger_error_call,
    session_set; simpl.
  by destruct (Logger_error ext _ _) as [f' [x|]].
Qed.

Lemma after_failure_screen p ext e w :
  screen (after_failure p ext e w) = screen w ++ [st_error (failure_prefix p +:+ message e)].
Proof. reflexivity. Qed.

Lemma after_failure_log p ext e w :
  log (after_failure p ext e w) =
    log w ++ match (Logger_error ext (log_prefix p +:+ message e) (fs w)).2 with
             | None => [log_prefix p +:+ message e]
             | Some _ => []
             end.
Proof.
  unfold after_failure; simpl. destruct (Logger_error ext _ _).2; by rewrite ?app_nil_r.
Qed.

Lemma after_failure_fs p ext e w :
  fs (after_failure p ext e w) = (Logger_error ext (log_prefix p +:+ message e) (fs w)).1.
Proof. reflexivity. Qed.

Lemma after_failure_session p ext e w :
  session_state (after_failure p ext e w) = session_state w.
Proof. reflexivity. Qed.

Lemma after_failure_calls p ext e w : calls (after_failure p ext e w) = calls w.
Proof. reflexivity. Qed.

(** *** Display code and what it renders *)

Lemma render_each_cons {A} (one : A → rendering) x l :
  render_each one (x :: l) =
    match (one x).2 with
    | None => ((one x).1 ++ (render_each one l).1, (render_each one l).2)
    | Some text => ((one x).1, Some text)
    end.
Proof. reflexivity. Qed.

Lemma for_each_render {A} (body : A → M unit) (one : filesystem → A → rendering) l :
  (∀ x w, body x w = render (one (fs w) x) w) →
  ∀ w, for_each l body w = render (render_each (one (fs w)) l) w.
Proof.
  intros Hbody. induction l as [|x l IH]; intros w.
  - unfold render; simpl. by rewrite show_nil.
  - rewrite render_each_cons. simpl for_each. unfold bind. rewrite Hbody.
    unfold render at 1. destruct (one (fs w) x).2 as [text|]; [done|].
    rewrite IH. unfold render; simpl. by rewrite show_show.
Qed.

Lemma show_file_stop : ∀ pre w texts q post text,
  read_all (fs w) pre = Some texts →
  read_text (fs w) q = Failed text →
  for_each (pre ++ q :: post) show_file w =
    (Raise (library_error text),
     show (concat (List.map (λ pt, file_view pt.1 pt.2) texts)
           ++ [st_expander ("📝 " +:+ name q)]) w).
Proof.
  induction pre as [|p pre IH]; intros w texts q post text Hr Hq; simpl in *.
  - injection Hr as <-. unfold bind at 1.
    unfold show_file, bind, emit, on_fs_raising; simpl. by rewrite Hq.
  - destruct (read_text (fs w) p) as [content|] eqn:E; [|done].
    destruct (read_all (fs w) pre) as [rest|] eqn:Er; [|done].
    injection Hr as <-. unfold bind at 1.
    unfold show_file at 1, bind, emit, on_fs_raising; simpl. rewrite E. simpl.
    erewrite IH by (simpl; eassumption).
    f_equal. unfold show; simpl. by rewrite <- !app_assoc.
Qed.

Lemma show_files_run files : ∀ w texts,
  read_all (fs w) files = Some texts →
  for_each files show_file w =
    (Ok tt, show (concat (List.map (λ pt, file_view pt.1 pt.2) texts)) w).
Proof.
  induction files as [|p files IH]; intros w texts Hr; simpl in *.
  - injection Hr as <-. unfold ret; simpl. by rewrite show_nil.
  - destruct (read_text (fs w) p) as [content|] eqn:E; [|done].
    destruct (read_all (fs w) files) as [rest|] eqn:Er; [|done].
    injection Hr as <-. unfold bind at 1.
    unfold show_file at 1, bind, emit, on_fs_raising; simpl. rewrite E. simpl.
    erewrite IH by (simpl; exact Er).
    f_equal. unfold show; simpl. by rewrite <- !app_assoc.
Qed.

Lemma read_all_nil f files : read_all f files = Some [] → files = [].
Proof.
  destruct files as [|q files]; [done|]. simpl.
  by destruct (read_text f q), (read_all f files).
Qed.

(** *** README *)

Lemma readme_display_run repo_path w :
  readme_display repo_path w = render (readme_rendering (fs w) repo_path) w.
Proof.
  unfold readme_display, readme_rendering, render, bind, on_fs_raising, emit; simpl.
  destruct (path_exists (fs w) _) as [[]|text]; simpl; [|by rewrite show_nil..].
  destruct (read_text (fs w) _) as [content|text]; simpl; [|done].
  unfold show; simpl. by rewrite <- !app_assoc.
Qed.

Lemma readme_try_run ext ws repo_path w :
  readme_try ext repo_path
    (st_checkbox ws "Use Existing README" false)
    (st_checkbox ws "Exclude Project Overview" false)
    (st_checkbox ws "Exclude Table of Contents" false)
    (st_checkbox ws "Exclude Architecture" false)
    (st_checkbox ws "Exclude C4 Model" false)
    (st_checkbox ws "Exclude Repository Structure" false)
    (st_checkbox ws "Exclude Dependencies" false)
    (st_checkbox ws "Exclude API Documentation" false)
    (st_checkbox ws "Exclude Development Notes" false)
    (st_checkbox ws "Exclude Known Issues" false) w =
  let out := ReadmeHandler ext (readme_form ws repo_path) (fs w) in
  let w1 := called out.1 (CallReadme (readme_form ws repo_path), out.2) w in
  match out.2 with
  | Some e => (Raise e, w1)
  | None => readme_display repo_path (show [st_success "✅ README generated successfully!"] w1)
  end.
Proof.
  unfold readme_try, run_readme_generation, bind. rewrite asyncio_run_run.
  fold (readme_form ws repo_path).
  by destruct (ReadmeHandler ext _ _) as [f' [e|]].
Qed.

Lemma readme_page_idle ext ws w :
  st_button ws "📝 Generate README" = false → readme_page ext ws w = (Ok tt, w).
Proof. intros Hb. unfold readme_page, bind, on_fs. by rewrite Hb. Qed.

Lemma readme_page_submitted ext ws w :
  st_button ws "📝 Generate README" = true →
  path_exists (fs w) (Path (repo_path_field ws w)) = Done true →
  readme_page ext ws w =
    let out := handler_outcome README ext ws w in
    let w1 := called out.1 (form_call README ws (repo_path_field ws w), out.2)
                (show [st_spinner (spinner_text README)] w) in
    match out.2 with
    | Some e =>
        if is_Exception e then (Ok tt, after_failure README ext e w1) else (Raise e, w1)
    | None =>
        let shown := readme_rendering out.1 (repo_path_field ws w) in
        let w2 := show (st_success (success_text README) :: shown.1) w1 in
        match shown.2 with
        | None => (Ok tt, w2)
        | Some text => (Ok tt, after_failure README ext (library_error text) w2)
        end
    end.
Proof.
  intros Hb He. unfold readme_page, bind, on_fs, on_fs_raising, repo_path_field in *.
  rewrite Hb. simpl. rewrite He. simpl.
  unfold try_except. rewrite readme_try_run. simpl.
  unfold handler_outcome, repo_path_field. simpl.
  destruct (ReadmeHandler ext _ _) as [f' [e|]]; simpl.
  - unfold except_Exception. destruct (is_Exception e); [|done].
    by rewrite readme_except_run.
  - rewrite readme_display_run. unfold render; simpl.
    destruct (readme_rendering f' _).2 as [text|]; simpl.
    + rewrite readme_except_run. by rewrite show_show.
    + by rewrite show_show.
Qed.

(** *** Analysis *)

Lemma analyze_try_run ext ws repo_path w :
  analyze_try ext repo_path
    (st_checkbox ws "Exclude Code Structure" false)
    (st_checkbox ws "Exclude Dependencies" false)
    (st_checkbox ws "Exclude Data Flow" false)
    (st_checkbox ws "Exclude Request Flow" false)
    (st_checkbox ws "Exclude API Analysis" false)
    (st_number_input ws "Max Workers" 0 20 0) w =
  let out := AnalyzeHandler ext (analyze_form ws repo_path) (fs w) in
  let w1 := called out.1 (CallAnalyze (analyze_form ws repo_path), out.2) w in
  match out.2 with
  | Some e => (Raise e, w1)
  | None =>
      match scan repo_path out.1 with
      | Done found =>
          (Ok tt, show [st_success "✅ Analysis completed successfully!"]
                    (with_session (stored found (finished (session_state w))) w1))
      | Failed text =>
          (Raise (library_error text), with_session (finished (session_state w)) w1)
      end
  end.
Proof.
  unfold analyze_try, run_analysis, bind. rewrite asyncio_run_run.
  fold (analyze_form ws repo_path).
  destruct (AnalyzeHandler ext _ _) as [f' [e|]]; simpl; [done|].
  unfold scan, on_fs_raising, session_set, emit, ret; simpl.
  destruct (path_exists f' _) as [[]|text]; simpl; try done.
  by destruct (glob_md f' _) as [found|text].
Qed.

Lemma analyze_display_session : preserves session_state analyze_display.
Proof. unfold analyze_display, show_file, py_and. frame. Qed.

Lemma analyze_display_calls : preserves calls analyze_display.
Proof. unfold analyze_display, show_file, py_and. frame. Qed.

Lemma analyze_display_fs : preserves fs analyze_display.
Proof. unfold analyze_display, show_file, py_and. frame. Qed.

Lemma analyze_display_log : preserves log analyze_display.
Proof. unfold analyze_display, show_file, py_and. frame. Qed.

Lemma analyze_display_incomplete w :
  session_state w !! "analysis_complete" = Some (VBool false) →
  analyze_display w = (Ok tt, w).
Proof. intros H. unfold analyze_display, py_and, bind, session_get. by rewrite H. Qed.

Lemma analyze_display_complete w files :
  session_state w !! "analysis_complete" = Some (VBool true) →
  session_state w !! "generated_files" = Some (VList files) →
  analyze_display w =
    match files with
    | [] => (Ok tt, w)
    | _ => for_each files show_file (show [st_markdown "### 📄 Generated Analysis Files"] w)
    end.
Proof.
  intros Hc Hg. unfold analyze_display, py_and, bind, session_get. rewrite Hc; simpl.
  rewrite Hg. destruct files as [|p files]; [done|]. simpl. by rewrite Hg.
Qed.

(** The display block adds to the screen and changes nothing else. *)
Lemma analyze_display_screen w : ∃ later, screen (analyze_display w).2 = screen w ++ later.
Proof.
  assert (Hloop : ∀ files w, ∃ l, screen (for_each files show_file w).2 = screen w ++ l).
  { induction files as [|q files IH]; intros w0; simpl.
    - exists []. by rewrite app_nil_r.
    - unfold bind at 1. unfold show_file at 1, bind, emit, on_fs_raising; simpl.
      destruct (read_text (fs w0) q) as [content|text]; simpl; [|by eexists].
      match goal with |- context [for_each files show_file ?w1] =>
        destruct (IH w1) as [l ->] end.
      simpl. rewrite <- !app_assoc. by eexists. }
  unfold analyze_display, py_and, bind, session_get.
  destruct (session_state w !! "analysis_complete") as [c|]; simpl;
    [|exists []; by rewrite app_nil_r].
  destruct (truthy c) eqn:Hc; simpl; [|rewrite Hc; exists []; by rewrite app_nil_r].
  destruct (session_state w !! "generated_files") as [g|] eqn:Hg; simpl;
    [|exists []; by rewrite app_nil_r].
  destruct (truthy g); simpl; [|exists []; by rewrite app_nil_r].
  rewrite Hg. simpl. unfold iter_paths.
  destruct g as [b|z|t|files]; simpl; try by eexists.
  match goal with |- context [for_each files show_file ?w1] =>
    destruct (Hloop files w1) as [l ->] end.
  simpl. rewrite <- app_assoc. by eexists.
Qed.

Lemma analyze_page_idle ext ws w :
  st_button ws "🚀 Start Analysis" = false → analyze_page ext ws w = analyze_display w.
Proof. intros Hb. unfold analyze_page, bind, on_fs. by rewrite Hb. Qed.

Lemma analyze_page_submitted ext ws w :
  st_button ws "🚀 Start Analysis" = true →
  path_exists (fs w) (Path (repo_path_field ws w)) = Done true →
  analyze_page ext ws w =
    let out := handler_outcome Analysis ext ws w in
    let w1 := called out.1 (form_call Analysis ws (repo_path_field ws w), out.2)
                (show [st_spinner (spinner_text Analysis)]
                   (with_session (started (session_state w)) w)) in
    match out.2 with
    | Some e =>
        if is_Exception e
        then (Ok tt, after_failure Analysis ext e
                       (with_session
                          (<["analysis_running" := VBool false]> (started (session_state w)))
                          w1))
        else (Raise e, w1)
    | None =>
        match scan (repo_path_field ws w) out.1 with
        | Done found =>
            analyze_display
              (show [st_success (success_text Analysis)]
                 (with_session (stored found (finished (started (session_state w)))) w1))
        | Failed text =>
            analyze_display
              (after_failure Analysis ext (library_error text)
                 (with_session
                    (<["analysis_running" := VBool false]>
                       (finished (started (session_state w)))) w1))
        end
    end.
Proof.
  intros Hb He. unfold analyze_page, bind, on_fs, on_fs_raising, repo_path_field in *.
  rewrite Hb. simpl. rewrite He. simpl.
  unfold try_except. rewrite analyze_try_run. simpl.
  unfold handler_outcome, repo_path_field. simpl.
  destruct (AnalyzeHandler ext _ _) as [f' [e|]]; simpl.
  - unfold except_Exception. destruct (is_Exception e); [|done].
    rewrite analyze_except_run. simpl.
    apply analyze_display_incomplete.
    rewrite after_failure_session. simpl. unfold started.
    by rewrite lookup_insert_ne, lookup_insert_eq.
  - destruct (scan _ f') as [found|text]; simpl; [done|].
    by rewrite analyze_except_run.
Qed.

(** *** AI rules *)

Lemma show_rule_run q w : show_rule q w = render (rule_rendering (fs w) q) w.
Proof.
  unfold show_rule, rule_rendering, render, bind, emit, on_fs_raising; simpl.
  destruct (read_text (fs w) q) as [text|text]; simpl; [|done].
  unfold show; simpl. by rewrite <- !app_assoc.
Qed.

Lemma ai_rules_display_one_run item w :
  ai_rules_display_one item w = render (artifact_rendering (fs w) item) w.
Proof.
  destruct item as [p display_name].
  unfold ai_rules_display_one, artifact_rendering, bind, emit, on_fs_raising, ret, render;
    simpl.
  destruct (path_exists (fs w) p) as [[]|text]; simpl; rewrite ?show_nil; try done.
  destruct (is_file (fs w) p) as [[]|text]; simpl; try done;
    [destruct (read_text (fs w) p) as [content|text]; simpl; try done|];
    (destruct (is_dir (fs w) p) as [[]|text]; simpl; try done;
     [destruct (glob_md (fs w) p) as [rule_files|text]; simpl;
      [rewrite (for_each_render show_rule rule_rendering) by apply show_rule_run;
       unfold render; simpl; f_equal|]|];
     unfold show; simpl; by rewrite <- ?app_assoc).
Qed.

Lemma ai_rules_display_run repo_path w :
  ai_rules_display repo_path w = render (ai_rules_rendering (fs w) repo_path) w.
Proof.
  unfold ai_rules_display, ai_rules_rendering, bind, emit. cbv zeta.
  rewrite (for_each_render ai_rules_display_one artifact_rendering)
    by apply ai_rules_display_one_run.
  unfold render; simpl. f_equal. unfold show; simpl. by rewrite <- app_assoc.
Qed.

Opaque ai_rules_rendering.

Lemma ai_rules_try_run ext ws repo_path w :
  ai_rules_try ext repo_path
    (st_checkbox ws "Skip Existing CLAUDE.md" false)
    (st_checkbox ws "Skip Existing AGENTS.md" false)
    (st_checkbox ws "Skip Existing Cursor Rules" false)
    (st_selectbox ws "Detail Level" ["minimal"; "standard"; "comprehensive"] 1)
    (st_number_input ws "Max CLAUDE.md Lines" 100 2000 500)
    (st_number_input ws "Max AGENTS.md Lines" 50 500 150) w =
  let out := AIRulesHandler ext (ai_rules_form ws repo_path) (fs w) in
  let w1 := called out.1 (CallAIRules (ai_rules_form ws repo_path), out.2) w in
  match out.2 with
  | Some e => (Raise e, w1)
  | None =>
      ai_rules_display repo_path (show [st_success "✅ AI rules generated successfully!"] w1)
  end.
Proof.
  unfold ai_rules_try, run_ai_rules_generation, bind. rewrite asyncio_run_run.
  fold (ai_rules_form ws repo_path).
  by destruct (AIRulesHandler ext _ _) as [f' [e|]].
Qed.

Lemma ai_rules_page_idle ext ws w :
  st_button ws "🚀 Generate AI Rules" = false → ai_rules_page ext ws w = (Ok tt, w).
Proof. intros Hb. unfold ai_rules_page, bind, on_fs. by rewrite Hb. Qed.

Lemma ai_rules_page_submitted ext ws w :
  st_button ws "🚀 Generate AI Rules" = true →
  path_exists (fs w) (Path (repo_path_field ws w)) = Done true →
  ai_rules_page ext ws w =
    let out := handler_outcome AI_Rules ext ws w in
    let w1 := called out.1 (form_call AI_Rules ws (repo_path_field ws w), out.2)
                (show [st_spinner (spinner_text AI_Rules)] w) in
    match out.2 with
    | Some e =>
        if is_Exception e then (Ok tt, after_failure AI_Rules ext e w1) else (Raise e, w1)
    | None =>
        let shown := ai_rules_rendering out.1 (repo_path_field ws w) in
        let w2 := show (st_success (success_text AI_Rules) :: shown.1) w1 in
        match shown.2 with
        | None => (Ok tt, w2)
        | Some text => (Ok tt, after_failure AI_Rules ext (library_error text) w2)
        end
    end.
Proof.
  intros Hb He. unfold ai_rules_page, bind, on_fs, on_fs_raising, repo_path_field in *.
  rewrite Hb. simpl. rewrite He. simpl.
  unfold try_except. rewrite ai_rules_try_run. simpl.
  unfold handler_outcome, repo_path_field. simpl.
  destruct (AIRulesHandler ext _ _) as [f' [e|]]; simpl.
  - unfold except_Exception. destruct (is_Exception e); [|done].
    by rewrite ai_rules_except_run.
  - rewrite ai_rules_display_run. unfold render; simpl.
    destruct (ai_rules_rendering f' _).2 as [text|]; simpl.
    + rewrite ai_rules_except_run. by rewrite show_show.
    + by rewrite show_show.
Qed.

Transparent ai_rules_rendering.

(** *** What the renderings hold *)

Lemma rule_rendering_done f q text :
  read_text f q = Done text → rule_rendering f q = (rule_view q text, None).
Proof. intros E. unfold rule_rendering. by rewrite E. Qed.

Lemma rule_rendering_failed f q text :
  read_text f q = Failed text →
  rule_rendering f q = ([st_markdown ("**" +:+ name q +:+ "**")], Some text).
Proof. intros E. unfold rule_rendering. by rewrite E. Qed.

(** A directory listing that raises nothing shows the name and the text of
    every rule file. *)
Lemma rules_rendering_complete f rules :
  (render_each (rule_rendering f) rules).2 = None →
  ∃ texts, read_all f rules = Some texts ∧
    (render_each (rule_rendering f) rules).1 =
      concat (List.map (λ qt, rule_view qt.1 qt.2) texts).
Proof.
  induction rules as [|q rules IH]; [intros _; by exists []|].
  rewrite render_each_cons. simpl read_all.
  destruct (read_text f q) as [text|text] eqn:E.
  - rewrite (rule_rendering_done f q text E). cbn [fst snd].
    intros Hrest. destruct (IH Hrest) as (texts & -> & ->). by eexists.
  - by rewrite (rule_rendering_failed f q text E).
Qed.

Lemma rules_rendering_no_expander f rules l :
  ¬ (st_expander l ∈ (render_each (rule_rendering f) rules).1).
Proof.
  induction rules as [|q rules IH]; [by intros ?%elem_of_nil|].
  rewrite render_each_cons.
  destruct (read_text f q) as [text|text] eqn:E.
  - rewrite (rule_rendering_done f q text E). cbn [fst snd]. unfold rule_view.
    intros [|H]%elem_of_cons; [done|]. by apply elem_of_cons in H as [|H].
  - rewrite (rule_rendering_failed f q text E). cbn [fst snd].
    by intros [|?%elem_of_nil]%elem_of_cons.
Qed.

(** Whether rendering a location raises does not depend on the name it is
    displayed under. *)
Lemma artifact_failure_name f p display_name display_name' :
  (artifact_rendering f (p, display_name)).2 = (artifact_rendering f (p, display_name')).2.
Proof.
  unfold artifact_rendering.
  destruct (path_exists f p) as [[]|]; [|done..].
  destruct (is_file f p) as [regular|]; [|done].
  destruct (if regular then read_text f p else Done ""); [|done].
  destruct (is_dir f p) as [[]|]; [|done..].
  by destruct (glob_md f p).
Qed.

Lemma readable_rendering f p display_name :
  readable f p = true ↔ (artifact_rendering f (p, display_name)).2 = None.
Proof.
  unfold readable. rewrite (artifact_failure_name f p "" display_name).
  by destruct (artifact_rendering f (p, display_name)).2.
Qed.

Lemma unreadable_rendering f p display_name :
  readable f p = false ↔ ∃ text, (artifact_rendering f (p, display_name)).2 = Some text.
Proof.
  unfold readable. rewrite (artifact_failure_name f p "" display_name).
  destruct (artifact_rendering f (p, display_name)).2; [|by split; [|intros [? ?]]].
  split; [by eexists|done].
Qed.

(** The expander of a location is on the screen exactly when [exists()]
    returned [True] for it. *)
Lemma artifact_expander f p display_name l :
  st_expander l ∈ artifact_view f (p, display_name) ↔
  l = "📝 " +:+ display_name ∧ path_exists f p = Done true.
Proof.
  unfold artifact_view, artifact_rendering.
  destruct (path_exists f p) as [[]|]; simpl;
    [|by split; [intros ?%elem_of_nil | intros [_ ?]]..].
  assert (∀ rest, ¬ (st_expander l ∈ rest) →
            st_expander l ∈ st_expander ("📝 " +:+ display_name) :: rest ↔
            l = "📝 " +:+ display_name ∧ Done true = Done true (A:=bool)) as Hhead.
  { intros rest Hrest. split.
    - by intros [[= ->]|?]%elem_of_cons.
    - intros [-> _]. apply list_elem_of_here. }
  destruct (is_file f p) as [regular|]; simpl;
    [|apply Hhead; by intros ?%elem_of_nil].
  destruct (if regular then read_text f p else Done "") as [content|]; simpl;
    [|apply Hhead; by intros ?%elem_of_nil].
  destruct (is_dir f p) as [[]|]; simpl; [| |apply Hhead; by intros ?%elem_of_nil].
  - destruct (glob_md f p) as [rules|]; simpl; apply Hhead.
    + intros [|H]%elem_of_cons; [done|]. by apply rules_rendering_no_expander in H.
    + by intros [|?%elem_of_nil]%elem_of_cons.
  - apply Hhead. intros [|H]%elem_of_cons; [done|].
    by apply elem_of_cons in H as [|?%elem_of_nil].
Qed.

Lemma artifact_view_absent f p display_name :
  path_exists f p = Done false → artifact_view f (p, display_name) = [].
Proof. intros He. unfold artifact_view, artifact_rendering. by rewrite He. Qed.

(** A directory is rendered as a notice followed by the name and text of
    each of its [*.md] entries. *)
Lemma artifact_view_directory f p display_name :
  path_exists f p = Done true → is_dir f p = Done true → readable f p = true →
  ∃ rules texts,
    glob_md f p = Done rules ∧ read_all f rules = Some texts ∧
    artifact_view f (p, display_name) =
      [ st_expander ("📝 " +:+ display_name);
        st_info ("Directory created: " +:+ str p) ] ++
      concat (List.map (λ qt, rule_view qt.1 qt.2) texts).
Proof.
  intros He Hd. rewrite (readable_rendering f p display_name).
  unfold artifact_view, artifact_rendering. rewrite He, Hd.
  destruct (is_file f p) as [regular|]; [|done].
  destruct (if regular then read_text f p else Done ""); [|done].
  destruct (glob_md f p) as [rules|]; [|done]. simpl.
  intros (texts & Hr & ->)%rules_rendering_complete. by exists rules, texts.
Qed.

(** Anything else that exists is rendered as its text with a download
    button; the text is empty when [is_file()] says it is no regular
    file. *)
Lemma artifact_view_file f p display_name :
  path_exists f p = Done true → is_dir f p = Done false → readable f p = true →
  ∃ content,
    (is_file f p = Done true ∧ read_text f p = Done content ∨
     is_file f p = Done false ∧ content = "") ∧
    artifact_view f (p, display_name) =
      [ st_expander ("📝 " +:+ display_name);
        st_markdown content;
        st_download_button ("⬇️ Download " +:+ display_name) content display_name
          "text/markdown" ].
Proof.
  intros He Hd. rewrite (readable_rendering f p display_name).
  unfold artifact_view, artifact_rendering. rewrite He, Hd.
  destruct (is_file f p) as [[]|]; [| |done].
  - destruct (read_text f p) as [content|]; [|done]. intros _. exists content. auto.
  - intros _. exists "". auto.
Qed.

Lemma render_each_expander f l item items :
  st_expander l ∈ (render_each (artifact_rendering f) (item :: items)).1 ↔
  st_expander l ∈ artifact_view f item ∨
  readable f item.1 = true ∧ st_expander l ∈ (render_each (artifact_rendering f) items).1.
Proof.
  rewrite render_each_cons. destruct item as [p display_name]. cbn [fst].
  rewrite (readable_rendering f p display_name). unfold artifact_view.
  destruct (artifact_rendering f (p, display_name)).2; simpl.
  - split; [by left|]. by intros [|[? _]].
  - rewrite elem_of_app. split; [intros [|]; auto|]. by intros [|[_ ?]]; [left|right].
Qed.

(** The locations that can be rendered come first on the screen, each
    with its whole view. *)
Lemma render_each_take f items : ∀ k,
  (∀ item, item ∈ take k items → readable f item.1 = true) →
  ∃ rest, (render_each (artifact_rendering f) items).1 =
            concat (List.map (artifact_view f) (take k items)) ++ rest ∧
          (length items ≤ k → rest = [] ∧ (render_each (artifact_rendering f) items).2 = None)%nat.
Proof.
  induction items as [|[p display_name] items IH]; intros k Hk.
  - exists []. by destruct k.
  - destruct k as [|k]; [eexists; split; [reflexivity|simpl; lia]|].
    rewrite render_each_cons. simpl take.
    assert (readable f p = true) as Hp by (apply (Hk (p, display_name)); by left).
    apply (readable_rendering f p display_name) in Hp. rewrite Hp.
    destruct (IH k) as (rest & -> & Hall).
    { intros item Hitem. apply Hk. simpl. by right. }
    exists rest. simpl. split; [by rewrite <- app_assoc|].
    intros Hlen. apply Hall. lia.
Qed.

(** ** What every page controller does *)

Lemma Analysis_or_not p : p = Analysis ∨ p ≠ Analysis.
Proof. destruct p; [by left|by right..]. Qed.

Lemma controller_idle p ext ws w :
  st_button ws (submit_button p) = false →
  controller p ext ws w =
    match p with
    | Analysis => analyze_display w
    | _ => (Ok tt, w)
    end.
Proof.
  destruct p; [apply analyze_page_idle | apply readme_page_idle | apply ai_rules_page_idle].
Qed.

(** The README and AI rules pages, once the button is pressed and the path
    was found: a failure of the handler or of the display code ends in the
    [except] block. *)
Lemma results_page_submitted p ext ws w :
  p ≠ Analysis →
  st_button ws (submit_button p) = true →
  path_exists (fs w) (Path (repo_path_field ws w)) = Done true →
  controller p ext ws w =
    let out := handler_outcome p ext ws w in
    let w1 := called out.1 (form_call p ws (repo_path_field ws w), out.2)
                (show [st_spinner (spinner_text p)] w) in
    match out.2 with
    | Some e =>
        if is_Exception e then (Ok tt, after_failure p ext e w1) else (Raise e, w1)
    | None =>
        let shown := results_rendering p out.1 (repo_path_field ws w) in
        let w2 := show (st_success (success_text p) :: shown.1) w1 in
        match shown.2 with
        | None => (Ok tt, w2)
        | Some text => (Ok tt, after_failure p ext (library_error text) w2)
        end
    end.
Proof.
  destruct p; [done|intros _; apply readme_page_submitted
              |intros _; apply ai_rules_page_submitted].
Qed.

(** A page makes at most one handler call, only when its button is pressed
    and the path was found, and always with the configuration built from the
    form. *)
Lemma controller_calls p ext ws w :
  calls (controller p ext ws w).2 =
    calls w ++
    (if st_button ws (submit_button p) && path_found (fs w) (Path (repo_path_field ws w))
     then [(form_call p ws (repo_path_field ws w), (handler_outcome p ext ws w).2)]
     else []).
Proof.
  destruct (st_button ws (submit_button p)) eqn:Hb; cbn [andb].
  2:{ rewrite app_nil_r, controller_idle by done.
      destruct p; [apply analyze_display_calls|done..]. }
  unfold path_found. destruct (path_exists (fs w) _) as [[]|text] eqn:He.
  2:{ by rewrite app_nil_r, controller_nonexistent. }
  2:{ by rewrite app_nil_r, (controller_unchecked _ _ _ _ text). }
  destruct (Analysis_or_not p) as [->|Hp].
  - unfold controller, submit_button in *.
    rewrite analyze_page_submitted by done. cbv zeta.
    destruct (handler_outcome Analysis ext ws w) as [f' [e|]]; cbn [fst snd].
    + by destruct (is_Exception e).
    + destruct (scan _ _); by rewrite analyze_display_calls.
  - rewrite results_page_submitted by done. cbv zeta.
    destruct (handler_outcome p ext ws w) as [f' [e|]]; cbn [fst snd].
    + by destruct (is_Exception e).
    + by destruct (results_rendering p f' _).2.
Qed.

Lemma new_calls_controller p ext ws w :
  new_calls (controller p ext ws) w =
    if st_button ws (submit_button p) && path_found (fs w) (Path (repo_path_field ws w))
    then [(form_call p ws (repo_path_field ws w), (handler_outcome p ext ws w).2)]
    else [].
Proof. unfold new_calls. rewrite controller_calls. apply drop_own_length. Qed.

(** A handler call was made: the button was pressed, the path was found,
    and the call is the one of the form. *)
Lemma new_call_inv p ext ws w c o :
  (c, o) ∈ new_calls (controller p ext ws) w →
  st_button ws (submit_button p) = true ∧
  path_exists (fs w) (Path (repo_path_field ws w)) = Done true ∧
  c = form_call p ws (repo_path_field ws w) ∧
  o = (handler_outcome p ext ws w).2.
Proof.
  rewrite new_calls_controller.
  destruct (st_button ws (submit_button p)); [|by intros ?%elem_of_nil].
  destruct (path_found _ _) eqn:Hf; [|by intros ?%elem_of_nil].
  apply path_found_true in Hf. by intros [= -> ->]%list_elem_of_singleton.
Qed.

(** An exception of class [Exception] raised by the handler ends in the
    [except] block of the page. *)
Lemma controller_on_Exception p ext ws w e :
  st_button ws (submit_button p) = true →
  path_exists (fs w) (Path (repo_path_field ws w)) = Done true →
  (handler_outcome p ext ws w).2 = Some e →
  is_Exception e = true →
  controller p ext ws w =
    (Ok tt,
     after_failure p ext e
       (called (handler_outcome p ext ws w).1 (form_call p ws (repo_path_field ws w), Some e)
          (show [st_spinner (spinner_text p)]
             (with_session (failed_session p (session_state w)) w)))).
Proof.
  intros Hb He Ho Hc. destruct p; unfold controller, submit_button in *.
  - rewrite analyze_page_submitted by done. cbv zeta. rewrite Ho, Hc. done.
  - rewrite readme_page_submitted by done. cbv zeta. rewrite Ho, Hc.
    unfold with_session; simpl. by destruct w.
  - rewrite ai_rules_page_submitted by done. cbv zeta. rewrite Ho, Hc.
    unfold with_session; simpl. by destruct w.
Qed.

(** Any other exception leaves the page as it is raised. *)
Lemma controller_on_BaseException p ext ws w e :
  st_button ws (submit_button p) = true →
  path_exists (fs w) (Path (repo_path_field ws w)) = Done true →
  (handler_outcome p ext ws w).2 = Some e →
  is_Exception e = false →
  controller p ext ws w =
    (Raise e,
     called (handler_outcome p ext ws w).1 (form_call p ws (repo_path_field ws w), Some e)
       (show [st_spinner (spinner_text p)]
          (with_session (interrupted_session p (session_state w)) w))).
Proof.
  intros Hb He Ho Hc. destruct p; unfold controller, submit_button in *.
  - rewrite analyze_page_submitted by done. cbv zeta. rewrite Ho, Hc. done.
  - rewrite readme_page_submitted by done. cbv zeta. rewrite Ho, Hc.
    unfold with_session; simpl. by destruct w.
  - rewrite ai_rules_page_submitted by done. cbv zeta. rewrite Ho, Hc.
    unfold with_session; simpl. by destruct w.
Qed.

Lemma handler_Exception_caught p ext ws w c e :
  (c, Some e) ∈ new_calls (controller p ext ws) w →
  is_Exception e = true →
  (controller p ext ws w).1 = Ok tt ∧
  new_screen (controller p ext ws) w =
    [st_spinner (spinner_text p); st_error (failure_prefix p +:+ message e)] ∧
  log (controller p ext ws w).2 =
    log w ++ match (Logger_error ext (log_prefix p +:+ message e)
                      (after_call p ext ws w)).2 with
             | None => [log_prefix p +:+ message e]
             | Some _ => []
             end ∧
  (p = Analysis → idle (controller p ext ws w).2).
Proof.
  intros (Hb & He & -> & Ho)%new_call_inv Hc.
  unfold new_screen. rewrite (controller_on_Exception p ext ws w e) by done. cbn [fst snd].
  split; [done|]. rewrite after_failure_screen, after_failure_log. simpl.
  split; [by rewrite <- app_assoc, drop_own_length|]. split; [done|].
  intros ->. unfold idle. simpl. apply lookup_insert_eq.
Qed.

(** The flags the Analysis page leaves behind once it has called the
    handler. *)
Lemma analysis_flags_after_call ext ws w c o :
  (c, o) ∈ new_calls (analyze_page ext ws) w →
  let s' := session_state (analyze_page ext ws w).2 in
  match o with
  | None =>
      s' !! "analysis_complete" = Some (VBool true) ∧
      s' !! "analysis_running" = Some (VBool false)
  | Some e =>
      s' !! "analysis_complete" = Some (VBool false) ∧
      s' !! "analysis_running" = Some (VBool (negb (is_Exception e))) ∧
      s' !! "generated_files" = session_state w !! "generated_files"
  end.
Proof.
  change (analyze_page ext ws) with (controller Analysis ext ws).
  intros (Hb & He & -> & ->)%new_call_inv.
  unfold controller, submit_button in *.
  rewrite analyze_page_submitted by done. cbv zeta.
  destruct (handler_outcome Analysis ext ws w) as [f' [e|]]; cbn [fst snd].
  - destruct (is_Exception e); cbn [snd negb]; rewrite ?after_failure_session; simpl;
      unfold started.
    + rewrite (lookup_insert_ne _ "analysis_running" "analysis_complete") by done.
      rewrite lookup_insert_eq.
      split; [done|]. split; [apply lookup_insert_eq|]. by rewrite !lookup_insert_ne.
    + rewrite lookup_insert_eq, (lookup_insert_ne _ "analysis_complete") by done.
      split; [done|]. split; [apply lookup_insert_eq|]. by rewrite !lookup_insert_ne.
  - destruct (scan _ f') as [[files|]|text]; rewrite analyze_display_session; simpl;
      unfold finished;
      rewrite ?(lookup_insert_ne _ "generated_files") by done;
      rewrite ?(lookup_insert_ne _ "analysis_running" "analysis_complete") by done;
      rewrite lookup_insert_eq; (split; [done|]);
      rewrite ?lookup_insert_eq; try done;
      by rewrite lookup_insert_ne, lookup_insert_eq.
Qed.

(** Outside of a handler that raises something that is not an [Exception],
    a page never returns with [analysis_running] set. *)
Lemma controller_keeps_idle p ext ws w :
  idle w →
  (∀ c e, (c, Some e) ∈ new_calls (controller p ext ws) w → is_Exception e = true) →
  idle (controller p ext ws w).2.
Proof.
  intros Hi Hexn. destruct p.
  2:{ unfold idle, controller. by rewrite readme_page_session. }
  2:{ unfold idle, controller. by rewrite ai_rules_page_session. }
  destruct (st_button ws (submit_button Analysis)) eqn:Hb.
  2:{ rewrite controller_idle by done. unfold idle. by rewrite analyze_display_session. }
  destruct (path_exists (fs w) (Path (repo_path_field ws w))) as [[]|text] eqn:He.
  2:{ by rewrite controller_nonexistent. }
  2:{ by rewrite (controller_unchecked _ _ _ _ text). }
  pose proof (analysis_flags_after_call ext ws w
                (form_call Analysis ws (repo_path_field ws w))
                (handler_outcome Analysis ext ws w).2) as Hflags.
  change (analyze_page ext ws) with (controller Analysis ext ws) in Hflags.
  rewrite new_calls_controller in Hflags, Hexn. unfold path_found in Hflags, Hexn.
  rewrite Hb, He in Hflags, Hexn. cbn [andb] in Hflags, Hexn.
  specialize (Hflags ltac:(by apply list_elem_of_singleton)). cbv zeta in Hflags.
  unfold idle. destruct (handler_outcome Analysis ext ws w).2 as [e|].
  - destruct Hflags as (_ & -> & _).
    rewrite (Hexn (form_call Analysis ws (repo_path_field ws w)) e); [done|].
    by apply list_elem_of_singleton.
  - by destruct Hflags as (_ & ->).
Qed.

(** What the README and AI rules pages show once the handler returned. *)
Lemma results_page_screen p ext ws w c :
  p ≠ Analysis →
  (c, None) ∈ new_calls (controller p ext ws) w →
  let shown := results_rendering p (after_call p ext ws w) (repo_path_field ws w) in
  c = form_call p ws (repo_path_field ws w) ∧
  (controller p ext ws w).1 = Ok tt ∧
  new_screen (controller p ext ws) w =
    st_spinner (spinner_text p) :: st_success (success_text p) :: shown.1 ++
    match shown.2 with
    | None => []
    | Some text => [st_error (failure_prefix p +:+ text)]
    end.
Proof.
  intros Hp (Hb & He & -> & Ho)%new_call_inv. unfold after_call, new_screen.
  rewrite results_page_submitted by done. cbv zeta. rewrite <- Ho.
  split; [done|].
  destruct (results_rendering p _ _).2 as [text|]; cbn [fst snd];
    rewrite ?after_failure_screen; simpl; rewrite <- ?app_assoc, drop_own_length; simpl.
  - done.
  - by rewrite app_nil_r.
Qed.

(** ** The properties of the orchestration contract *)

(** Takes membership in a literal screen apart. *)
Ltac on_screen H :=
  repeat (apply elem_of_cons in H as [H|H]; [try discriminate H|]);
  try (by apply elem_of_nil in H).

(** C1, as the code has it.  In every invocation of a page controller, an
    exception raised by the handler call that is an instance of [Exception]
    does not leave the controller: it is shown as one error message after
    the spinner, and the log write is attempted, an exception of the logger
    being dropped.  In an invocation that starts with [analysis_running]
    false and in which whatever the handler call raises is an instance of
    [Exception], the flag is false again when the controller is left.  (An
    exception that derives from [BaseException] only is not caught by
    [except Exception].) *)
Theorem handler_Exception_is_contained p ext ws w :
  (∀ c e, (c, Some e) ∈ new_calls (controller p ext ws) w →
     is_Exception e = true →
     (controller p ext ws w).1 = Ok tt ∧
     new_screen (controller p ext ws) w =
       [st_spinner (spinner_text p); st_error (failure_prefix p +:+ message e)] ∧
     log (controller p ext ws w).2 =
       log w ++ match (Logger_error ext (log_prefix p +:+ message e)
                         (after_call p ext ws w)).2 with
                | None => [log_prefix p +:+ message e]
                | Some _ => []
                end) ∧
  (idle w →
   (∀ c e, (c, Some e) ∈ new_calls (controller p ext ws) w → is_Exception e = true) →
   idle (controller p ext ws w).2).
Proof.
  split; [|apply controller_keeps_idle].
  intros c e Hin Hc.
  destruct (handler_Exception_caught p ext ws w c e Hin Hc) as (? & ? & ? & _).
  done.
Qed.

(** The README handler raises [RuntimeError] in the session an escaped
    [SystemExit] of the analysis left behind, with [analysis_running] still
    true, and the logger raises too: the page shows the failure, logs
    nothing and returns. *)
Lemma handler_Exception_is_contained_witness :
  let ws := Scenario.press "📝 Generate README" ∅ in
  let w := (controller Analysis Scenario.interrupted (Scenario.press "🚀 Start Analysis" ∅)
              Scenario.ready).2 in
  let run := controller README Scenario.broken ws w in
  ¬ idle w ∧
  (form_call README ws "/srv/alpha", Some Scenario.RuntimeError)
    ∈ new_calls (controller README Scenario.broken ws) w ∧
  is_Exception Scenario.RuntimeError = true ∧
  run.1 = Ok tt ∧
  new_screen (controller README Scenario.broken ws) w =
    [ st_spinner (spinner_text README);
      st_error "❌ README generation failed: model unavailable" ] ∧
  log run.2 = log w.
Proof.
  intros ws w run.
  assert (Hin : (form_call README ws "/srv/alpha", Some Scenario.RuntimeError)
                  ∈ new_calls (controller README Scenario.broken ws) w).
  { assert (new_calls (controller README Scenario.broken ws) w =
              [(form_call README ws "/srv/alpha", Some Scenario.RuntimeError)]) as ->
      by (vm_compute; reflexivity).
    by apply list_elem_of_singleton. }
  assert (Hc : is_Exception Scenario.RuntimeError = true) by reflexivity.
  split; [unfold idle; vm_compute; discriminate|].
  split; [exact Hin|]. split; [exact Hc|].
  destruct (handler_Exception_is_contained README Scenario.broken ws w) as [Hcaught _].
  destruct (Hcaught _ _ Hin Hc) as (Hok & Hscreen & Hlog).
  split; [exact Hok|]. split; [exact Hscreen|].
  unfold run. rewrite Hlog. vm_compute. reflexivity.
Defined.

(** C1 fails for an exception that is not an [Exception]: when the analysis
    handler raises [SystemExit], the exception leaves the page controller
    and [analysis_running] stays true. *)
Lemma handler_BaseException_escapes :
  let ws := Scenario.press "🚀 Start Analysis" ∅ in
  let run := controller Analysis Scenario.interrupted ws Scenario.ready in
  idle Scenario.ready ∧
  new_calls (controller Analysis Scenario.interrupted ws) Scenario.ready =
    [(form_call Analysis ws "/srv/alpha", Some Scenario.SystemExit)] ∧
  run.1 = Raise Scenario.SystemExit ∧
  session_state run.2 !! "analysis_running" = Some (VBool true) ∧
  ¬ idle run.2.
Proof.
  intros ws run. repeat split; try (vm_compute; reflexivity).
  unfold idle. vm_compute. discriminate.
Qed.

(** C2, as the code has it.  When the action button of a page is pressed
    and [exists()] returns [False] for the submitted repository path, the
    controller returns normally, having shown the error message and nothing
    else, and makes no handler call.  When [exists()] raises instead, the
    exception leaves the controller: nothing is shown, and no handler call
    is made either. *)
Theorem nonexistent_path_short_circuits p ext ws w :
  st_button ws (submit_button p) = true →
  (path_exists (fs w) (Path (repo_path_field ws w)) = Done false →
   (controller p ext ws w).1 = Ok tt ∧
   new_screen (controller p ext ws) w = [path_error (repo_path_field ws w)] ∧
   new_calls (controller p ext ws) w = []) ∧
  (∀ text,
     path_exists (fs w) (Path (repo_path_field ws w)) = Failed text →
     (controller p ext ws w).1 = Raise (library_error text) ∧
     new_screen (controller p ext ws) w = [] ∧
     new_calls (controller p ext ws) w = []).
Proof.
  intros Hb. rewrite new_calls_controller, Hb. unfold new_screen, path_found.
  split.
  - intros He. rewrite controller_nonexistent, He by done. simpl.
    by rewrite drop_own_length.
  - intros text He. rewrite (controller_unchecked p ext ws w text), He by done. simpl.
    by rewrite drop_all.
Qed.

Lemma nonexistent_path_short_circuits_witness :
  let ws := Scenario.type_path "/srv/gamma" (Scenario.press "📝 Generate README" ∅) in
  st_button ws (submit_button README) = true ∧
  path_exists (fs Scenario.ready) (Path (repo_path_field ws Scenario.ready)) = Done false ∧
  (controller README Scenario.calm ws Scenario.ready).1 = Ok tt ∧
  new_screen (controller README Scenario.calm ws) Scenario.ready =
    [path_error "/srv/gamma"] ∧
  new_calls (controller README Scenario.calm ws) Scenario.ready = [].
Proof.
  intros ws.
  assert (Hb : st_button ws (submit_button README) = true) by (vm_compute; reflexivity).
  assert (He : path_exists (fs Scenario.ready) (Path (repo_path_field ws Scenario.ready))
               = Done false) by (vm_compute; reflexivity).
  split; [exact Hb|]. split; [exact He|].
  exact (proj1 (nonexistent_path_short_circuits README Scenario.calm ws Scenario.ready Hb) He).
Defined.

(** C2 fails for a path that [stat] cannot examine.  Nothing exists at
    [/srv/aaa…a] with a name of 256 bytes, yet the README page shows no
    error message: [exists()] raises [OSError], which leaves the page. *)
Lemma unexaminable_path_is_not_reported :
  let text := "/srv/" +:+ Scenario.long_name in
  let ws := Scenario.type_path text (Scenario.press "📝 Generate README" ∅) in
  let run := controller README Scenario.calm ws Scenario.ready in
  st_button ws (submit_button README) = true ∧
  repo_path_field ws Scenario.ready = text ∧
  (∀ n, stat Scenario.tree ["srv"; "alpha"] (Path text) ≠ Found n) ∧
  run.1 = Raise (library_error ("[Errno 36] File name too long: '" +:+ text +:+ "'")) ∧
  new_screen (controller README Scenario.calm ws) Scenario.ready = [] ∧
  new_calls (controller README Scenario.calm ws) Scenario.ready = [].
Proof.
  intros text ws run.
  split; [vm_compute; reflexivity|]. split; [vm_compute; reflexivity|].
  split.
  { intros n. assert (stat Scenario.tree ["srv"; "alpha"] (Path text) = ENAMETOOLONG) as ->
      by (vm_compute; reflexivity). discriminate. }
  repeat split; vm_compute; reflexivity.
Qed.

(** C9.  When the action button of a page is pressed and [exists()] does
    not return [True] for the submitted repository path (it returns [False],
    or it raises), the controller leaves the session state as it found it
    (and the filesystem and the log as well). *)
Theorem nonexistent_path_leaves_session p ext ws w :
  st_button ws (submit_button p) = true →
  path_found (fs w) (Path (repo_path_field ws w)) = false →
  session_state (controller p ext ws w).2 = session_state w ∧
  fs (controller p ext ws w).2 = fs w ∧
  log (controller p ext ws w).2 = log w.
Proof.
  intros Hb Hf. unfold path_found in Hf.
  destruct (path_exists (fs w) _) as [[]|text] eqn:He; [done| |].
  - by rewrite controller_nonexistent.
  - by rewrite (controller_unchecked p ext ws w text).
Qed.

Lemma nonexistent_path_leaves_session_witness :
  let ws := Scenario.type_path "/srv/gamma" (Scenario.press "🚀 Start Analysis" ∅) in
  st_button ws (submit_button Analysis) = true ∧
  path_exists (fs Scenario.ready) (Path (repo_path_field ws Scenario.ready)) = Done false ∧
  path_found (fs Scenario.ready) (Path (repo_path_field ws Scenario.ready)) = false ∧
  session_state (controller Analysis Scenario.calm ws Scenario.ready).2 =
    session_state Scenario.ready ∧
  fs (controller Analysis Scenario.calm ws Scenario.ready).2 = fs Scenario.ready ∧
  log (controller Analysis Scenario.calm ws Scenario.ready).2 = log Scenario.ready.
Proof.
  intros ws.
  assert (Hb : st_button ws (submit_button Analysis) = true) by (vm_compute; reflexivity).
  assert (Hf : path_found (fs Scenario.ready) (Path (repo_path_field ws Scenario.ready))
               = false) by (vm_compute; reflexivity).
  split; [exact Hb|]. split; [vm_compute; reflexivity|]. split; [exact Hf|].
  exact (nonexistent_path_leaves_session Analysis Scenario.calm ws Scenario.ready Hb Hf).
Defined.

(** C10.  The README page and the AI rules page leave the session state,
    and so [analysis_running], [analysis_complete] and [generated_files], as
    they found it, whatever the form holds and whatever the handler does. *)
Theorem readme_and_ai_rules_keep_session ext ws w :
  session_state (readme_page ext ws w).2 = session_state w ∧
  session_state (ai_rules_page ext ws w).2 = session_state w.
Proof. split; [apply readme_page_session | apply ai_rules_page_session]. Qed.

(** C4, as the code has it.  In a README invocation whose handler call
    returned without raising, the controller returns normally, and the page
    offers the download of a text if and only if, on the filesystem the
    handler left, [exists()] returns [True] for [<repo>/README.md] and
    [read_text()] returns that text; the text is then rendered and offered
    as read.  When [exists()] returns [False] nothing follows the success
    message.  When the path exists and cannot be read as text (it is a
    directory, its bytes do not decode, it may not be opened), the heading
    is followed by the failure message, and when [exists()] itself raises,
    the failure message follows the success message. *)
Theorem readme_page_displays_README ext ws w c :
  (CallReadme c, None) ∈ new_calls (readme_page ext ws) w →
  let run := readme_page ext ws w in
  let f := after_call README ext ws w in
  let out := new_screen (readme_page ext ws) w in
  let readme_path := ReadmeHandlerConfig.repo_path c // "README.md" in
  run.1 = Ok tt ∧
  (∀ content,
     st_download_button "⬇️ Download README.md" content "README.md" "text/markdown" ∈ out ↔
     path_exists f readme_path = Done true ∧ read_text f readme_path = Done content) ∧
  (∀ content,
     path_exists f readme_path = Done true → read_text f readme_path = Done content →
     out = [ st_spinner "📝 Generating README... This may take a few minutes.";
             st_success "✅ README generated successfully!";
             st_markdown "### 📄 Generated README.md";
             st_markdown content;
             st_download_button "⬇️ Download README.md" content "README.md"
               "text/markdown" ]) ∧
  (path_exists f readme_path = Done false →
     out = [ st_spinner "📝 Generating README... This may take a few minutes.";
             st_success "✅ README generated successfully!" ]) ∧
  (∀ text,
     path_exists f readme_path = Done true → read_text f readme_path = Failed text →
     out = [ st_spinner "📝 Generating README... This may take a few minutes.";
             st_success "✅ README generated successfully!";
             st_markdown "### 📄 Generated README.md";
             st_error ("❌ README generation failed: " +:+ text) ]) ∧
  (∀ text,
     path_exists f readme_path = Failed text →
     out = [ st_spinner "📝 Generating README... This may take a few minutes.";
             st_success "✅ README generated successfully!";
             st_error ("❌ README generation failed: " +:+ text) ]).
Proof.
  change (readme_page ext ws) with (controller README ext ws).
  intros Hin. destruct (results_page_screen README ext ws w _ ltac:(done) Hin)
    as ([= ->] & Hok & Hout).
  cbv zeta. rewrite Hout. clear Hout Hin. split; [done|].
  unfold results_rendering, readme_rendering. simpl.
  destruct (path_exists _ _) as [[]|text0]; [destruct (read_text _ _) as [text|text]|..];
    simpl.
  - split; [|split; [by intros content _ [= <-]|done]].
    intros content; split.
    + intros H. on_screen H. by injection H as <-.
    + intros [_ [= <-]]. do 4 apply list_elem_of_further. apply list_elem_of_here.
  - split; [|split; [done|split; [done|split; [by intros ? _ [= <-]|done]]]].
    intros content; split; [|by intros [_ ?]]. intros H. on_screen H.
  - split; [|done].
    intros content; split; [|by intros [? _]]. intros H. on_screen H.
  - split; [|split; [done|split; [done|split; [done|by intros ? [= <-]]]]].
    intros content; split; [|by intros [? _]]. intros H. on_screen H.
Qed.

Lemma readme_page_displays_README_witness :
  let ws := Scenario.press "📝 Generate README" ∅ in
  let c := readme_form ws "/srv/alpha" in
  let run := readme_page Scenario.calm ws Scenario.ready in
  let f := after_call README Scenario.calm ws Scenario.ready in
  (CallReadme c, None) ∈ new_calls (readme_page Scenario.calm ws) Scenario.ready ∧
  path_exists f (ReadmeHandlerConfig.repo_path c // "README.md") = Done true ∧
  read_text f (ReadmeHandlerConfig.repo_path c // "README.md") = Done "# Alpha" ∧
  run.1 = Ok tt ∧
  new_screen (readme_page Scenario.calm ws) Scenario.ready =
    [ st_spinner "📝 Generating README... This may take a few minutes.";
      st_success "✅ README generated successfully!";
      st_markdown "### 📄 Generated README.md";
      st_markdown "# Alpha";
      st_download_button "⬇️ Download README.md" "# Alpha" "README.md" "text/markdown" ].
Proof.
  intros ws c run f.
  assert (Hcall : (CallReadme c, None)
                    ∈ new_calls (readme_page Scenario.calm ws) Scenario.ready).
  { assert (new_calls (readme_page Scenario.calm ws) Scenario.ready = [(CallReadme c, None)])
      as -> by (vm_compute; reflexivity).
    by apply list_elem_of_singleton. }
  assert (Hthere : path_exists f (ReadmeHandlerConfig.repo_path c // "README.md") = Done true)
    by (vm_compute; reflexivity).
  assert (Htext : read_text f (ReadmeHandlerConfig.repo_path c // "README.md")
                  = Done "# Alpha") by (vm_compute; reflexivity).
  split; [exact Hcall|]. split; [exact Hthere|]. split; [exact Htext|].
  destruct (readme_page_displays_README Scenario.calm ws Scenario.ready c Hcall)
    as (Hok & _ & Hshown & _).
  split; [exact Hok|]. exact (Hshown "# Alpha" Hthere Htext).
Defined.

(** C4 fails when what exists at [<repo>/README.md] cannot be read as
    text: in [/srv/beta] it is a directory; after the handler returned,
    [exists()] is true of it, and the page shows the heading and a failure
    message, with no content and no download. *)
Lemma existing_README_not_displayed :
  let ws := Scenario.type_path "/srv/beta" (Scenario.press "📝 Generate README" ∅) in
  let c := readme_form ws "/srv/beta" in
  let f := after_call README Scenario.calm ws Scenario.ready in
  let out := new_screen (readme_page Scenario.calm ws) Scenario.ready in
  new_calls (readme_page Scenario.calm ws) Scenario.ready = [(CallReadme c, None)] ∧
  path_exists f (ReadmeHandlerConfig.repo_path c // "README.md") = Done true ∧
  out = [ st_spinner "📝 Generating README... This may take a few minutes.";
          st_success "✅ README generated successfully!";
          st_markdown "### 📄 Generated README.md";
          st_error "❌ README generation failed: [Errno 21] Is a directory: '/srv/beta/README.md'" ] ∧
  ∀ content,
    ¬ (st_download_button "⬇️ Download README.md" content "README.md" "text/markdown" ∈ out).
Proof.
  intros ws c f out.
  assert (Hout : out =
    [ st_spinner "📝 Generating README... This may take a few minutes.";
      st_success "✅ README generated successfully!";
      st_markdown "### 📄 Generated README.md";
      st_error "❌ README generation failed: [Errno 21] Is a directory: '/srv/beta/README.md'" ])
    by (vm_compute; reflexivity).
  split; [vm_compute; reflexivity|]. split; [vm_compute; reflexivity|].
  split; [exact Hout|].
  intros content H. rewrite Hout in H. on_screen H.
Qed.

(** C5, as the code has it.  In an AI rules invocation whose handler call
    returned without raising, the controller returns normally, and on the
    filesystem the handler left: [CLAUDE.md] is displayed if and only if
    [exists()] returns [True] for it; [AGENTS.md] is displayed if and only
    if it exists and rendering [CLAUDE.md] raised nothing; [.cursor/rules]
    is displayed if and only if it exists and rendering the two before it
    raised nothing.  (Rendering a location raises when one of the queries
    about it fails, when it is a regular file that cannot be read as text,
    or when it is a directory with a [*.md] entry that cannot be.)  The
    locations that can be rendered come first on the screen, after the
    success message and the heading, each with its whole view, and when all
    three can be rendered nothing else is shown.  The view of a location
    that is a directory is a notice followed by the name and text of each
    of its [*.md] entries, without file content or a download; the view of
    any other location that exists is its text and a download button. *)
Theorem ai_rules_page_displays_artifacts ext ws w c :
  (CallAIRules c, None) ∈ new_calls (ai_rules_page ext ws) w →
  let run := ai_rules_page ext ws w in
  let f := after_call AI_Rules ext ws w in
  let out := new_screen (ai_rules_page ext ws) w in
  let repo := AIRulesHandlerConfig.repo_path c in
  let claude := repo // "CLAUDE.md" in
  let agents := repo // "AGENTS.md" in
  let cursor := repo // ".cursor" // "rules" in
  let banner := [ st_spinner "🤖 Generating AI rules... This may take a few minutes.";
                st_success "✅ AI rules generated successfully!";
                st_markdown "### 📄 Generated Files" ] in
  run.1 = Ok tt ∧
  (st_expander "📝 CLAUDE.md" ∈ out ↔ path_exists f claude = Done true) ∧
  (st_expander "📝 AGENTS.md" ∈ out ↔
     path_exists f agents = Done true ∧ readable f claude = true) ∧
  (st_expander "📝 Cursor Rules" ∈ out ↔
     path_exists f cursor = Done true ∧ readable f claude = true ∧
     readable f agents = true) ∧
  (∀ k, (∀ item, item ∈ take k (files_to_display repo) → readable f item.1 = true) →
        ∃ rest, out = banner ++ concat (List.map (artifact_view f)
                                        (take k (files_to_display repo))) ++ rest) ∧
  ((∀ item, item ∈ files_to_display repo → readable f item.1 = true) →
     out = banner ++ concat (List.map (artifact_view f) (files_to_display repo))) ∧
  (∀ item, item ∈ files_to_display repo →
     path_exists f item.1 = Done true → readable f item.1 = true →
     (is_dir f item.1 = Done true →
      ∃ rules texts,
        glob_md f item.1 = Done rules ∧ read_all f rules = Some texts ∧
        artifact_view f item =
          [ st_expander ("📝 " +:+ item.2);
            st_info ("Directory created: " +:+ str item.1) ] ++
          concat (List.map (λ qt, rule_view qt.1 qt.2) texts)) ∧
     (is_dir f item.1 = Done false →
      ∃ content,
        (is_file f item.1 = Done true ∧ read_text f item.1 = Done content ∨
         is_file f item.1 = Done false ∧ content = "") ∧
        artifact_view f item =
          [ st_expander ("📝 " +:+ item.2);
            st_markdown content;
            st_download_button ("⬇️ Download " +:+ item.2) content item.2
              "text/markdown" ])).
Proof.
  change (ai_rules_page ext ws) with (controller AI_Rules ext ws).
  intros Hin. destruct (results_page_screen AI_Rules ext ws w _ ltac:(done) Hin)
    as ([= ->] & Hok & Hout).
  cbv zeta. rewrite Hout. clear Hout Hin. split; [done|].
  set (f := after_call AI_Rules ext ws w).
  set (repo := AIRulesHandlerConfig.repo_path (ai_rules_form ws (repo_path_field ws w))).
  change (results_rendering AI_Rules f (repo_path_field ws w))
    with (st_markdown "### 📄 Generated Files"
            :: (render_each (artifact_rendering f) (files_to_display repo)).1,
          (render_each (artifact_rendering f) (files_to_display repo)).2).
  cbn [fst snd spinner_text success_text failure_prefix].
  set (shown := render_each (artifact_rendering f) (files_to_display repo)).
  assert (Hmem : ∀ l tail,
            (∀ x, x ∈ tail → ∃ body, x = st_error body) →
            st_expander l ∈
              st_spinner "🤖 Generating AI rules... This may take a few minutes."
              :: st_success "✅ AI rules generated successfully!"
              :: (st_markdown "### 📄 Generated Files" :: shown.1) ++ tail
            ↔ st_expander l ∈ shown.1).
  { intros l tail Htail. split.
    - intros H. on_screen H. apply elem_of_app in H as [H|H]; [done|].
      by destruct (Htail _ H).
    - intros H. do 3 apply list_elem_of_further. apply elem_of_app. by left. }
  assert (Htail : ∀ x, x ∈ match shown.2 with
                           | Some text =>
                               [st_error ("❌ AI rules generation failed: " +:+ text)]
                           | None => []
                           end → ∃ body, x = st_error body).
  { intros x. destruct shown.2; [|by intros ?%elem_of_nil].
    intros ->%list_elem_of_singleton. by eexists. }
  rewrite !(Hmem _ _ Htail).
  assert (Hlabels : ∀ l, st_expander l ∈ shown.1 ↔
            l = "📝 CLAUDE.md" ∧ path_exists f (repo // "CLAUDE.md") = Done true ∨
            readable f (repo // "CLAUDE.md") = true ∧
            (l = "📝 AGENTS.md" ∧ path_exists f (repo // "AGENTS.md") = Done true ∨
             readable f (repo // "AGENTS.md") = true ∧
             l = "📝 Cursor Rules" ∧
             path_exists f (repo // ".cursor" // "rules") = Done true)).
  { intros l. unfold shown, files_to_display.
    rewrite !render_each_expander, !artifact_expander. cbn [fst snd].
    split; [|by intuition].
    intros [?|[? [?|[? [?|[_ ?%elem_of_nil]]]]]]; by intuition. }
  rewrite !Hlabels. clear Hmem Htail Hlabels.
  split; [|split; [|split; [|split; [|split]]]].
  - split; [|by left]. by intros [[_ ?]|[_ [[[=] _]|[_ [[=] _]]]]].
  - split; [|intros [? ?]; right; split; [done|]; by left].
    by intros [[[=] _]|[? [[_ ?]|[_ [[=] _]]]]].
  - split; [|intros (? & ? & ?); right; split; [done|]; right; by split].
    by intros [[[=] _]|[? [[[=] _]|(? & _ & ?)]]].
  - intros k Hk.
    destruct (render_each_take f (files_to_display repo) k Hk) as (rest & Hshown & _).
    unfold shown. rewrite Hshown.
    eexists. simpl. rewrite <- !app_assoc. reflexivity.
  - intros Hall.
    destruct (render_each_take f (files_to_display repo) 3) as (rest & Hshown & Hend).
    { intros item Hitem. apply Hall. by rewrite firstn_all2 in Hitem by (simpl; lia). }
    destruct Hend as [-> Hnone]; [simpl; lia|].
    unfold shown. rewrite Hshown, Hnone, !app_nil_r. reflexivity.
  - intros [p display_name] _ He Hr. cbn [fst snd] in *. split; intros Hd.
    + by apply artifact_view_directory.
    + by apply artifact_view_file.
Qed.

(** In [/srv/alpha], [CLAUDE.md] is a file, [AGENTS.md] is absent and
    [.cursor/rules] is a directory with one rule file. *)
Lemma ai_rules_page_displays_artifacts_witness :
  let ws := Scenario.press "🚀 Generate AI Rules" ∅ in
  let c := ai_rules_form ws "/srv/alpha" in
  let run := ai_rules_page Scenario.calm ws Scenario.ready in
  let f := after_call AI_Rules Scenario.calm ws Scenario.ready in
  let repo := AIRulesHandlerConfig.repo_path c in
  (CallAIRules c, None) ∈ new_calls (ai_rules_page Scenario.calm ws) Scenario.ready ∧
  (∀ item, item ∈ files_to_display repo → readable f item.1 = true) ∧
  run.1 = Ok tt ∧
  new_screen (ai_rules_page Scenario.calm ws) Scenario.ready =
    [ st_spinner "🤖 Generating AI rules... This may take a few minutes.";
      st_success "✅ AI rules generated successfully!";
      st_markdown "### 📄 Generated Files";
      st_expander "📝 CLAUDE.md";
      st_markdown "# Claude";
      st_download_button "⬇️ Download CLAUDE.md" "# Claude" "CLAUDE.md" "text/markdown";
      st_expander "📝 Cursor Rules";
      st_info "Directory created: /srv/alpha/.cursor/rules";
      st_markdown "**style.md**";
      st_code "Use tabs" "markdown" ].
Proof.
  intros ws c run f repo.
  assert (Hcall : (CallAIRules c, None)
                    ∈ new_calls (ai_rules_page Scenario.calm ws) Scenario.ready).
  { assert (new_calls (ai_rules_page Scenario.calm ws) Scenario.ready
            = [(CallAIRules c, None)]) as -> by (vm_compute; reflexivity).
    by apply list_elem_of_singleton. }
  assert (Hall : ∀ item, item ∈ files_to_display repo → readable f item.1 = true).
  { intros item H. on_screen H; subst item; vm_compute; reflexivity. }
  split; [exact Hcall|]. split; [exact Hall|].
  destruct (ai_rules_page_displays_artifacts Scenario.calm ws Scenario.ready c Hcall)
    as (Hok & _ & _ & _ & _ & Hout & _).
  split; [exact Hok|]. rewrite (Hout Hall). vm_compute. reflexivity.
Defined.

(** C5 fails when an earlier location cannot be rendered: in [/srv/beta],
    [CLAUDE.md] is a directory that holds a directory [draft.md]; reading it
    raises, the [except] block takes over, and [AGENTS.md], which exists, is
    never displayed. *)
Lemma existing_artifact_not_displayed :
  let ws := Scenario.type_path "/srv/beta" (Scenario.press "🚀 Generate AI Rules" ∅) in
  let c := ai_rules_form ws "/srv/beta" in
  let f := after_call AI_Rules Scenario.calm ws Scenario.ready in
  new_calls (ai_rules_page Scenario.calm ws) Scenario.ready = [(CallAIRules c, None)] ∧
  path_exists f (AIRulesHandlerConfig.repo_path c // "AGENTS.md") = Done true ∧
  ¬ (st_expander "📝 AGENTS.md"
       ∈ new_screen (ai_rules_page Scenario.calm ws) Scenario.ready) ∧
  new_screen (ai_rules_page Scenario.calm ws) Scenario.ready =
    [ st_spinner "🤖 Generating AI rules... This may take a few minutes.";
      st_success "✅ AI rules generated successfully!";
      st_markdown "### 📄 Generated Files";
      st_expander "📝 CLAUDE.md";
      st_info "Directory created: /srv/beta/CLAUDE.md";
      st_markdown "**draft.md**";
      st_error "❌ AI rules generation failed: [Errno 21] Is a directory: '/srv/beta/CLAUDE.md/draft.md'" ].
Proof.
  intros ws c f.
  assert (Hscreen : new_screen (ai_rules_page Scenario.calm ws) Scenario.ready =
    [ st_spinner "🤖 Generating AI rules... This may take a few minutes.";
      st_success "✅ AI rules generated successfully!";
      st_markdown "### 📄 Generated Files";
      st_expander "📝 CLAUDE.md";
      st_info "Directory created: /srv/beta/CLAUDE.md";
      st_markdown "**draft.md**";
      st_error "❌ AI rules generation failed: [Errno 21] Is a directory: '/srv/beta/CLAUDE.md/draft.md'" ])
    by (vm_compute; reflexivity).
  split; [vm_compute; reflexivity|]. split; [vm_compute; reflexivity|].
  split; [|exact Hscreen].
  rewrite Hscreen. intros H. on_screen H.
Qed.

(** The same with a regular file: in [/srv/delta] the bytes of [CLAUDE.md]
    do not decode, and [AGENTS.md], which exists, is not displayed. *)
Example undecodable_artifact_ends_display :
  let ws := Scenario.type_path "/srv/delta" (Scenario.press "🚀 Generate AI Rules" ∅) in
  readable Scenario.disk (Path "/srv/delta" // "CLAUDE.md") = false ∧
  path_exists Scenario.disk (Path "/srv/delta" // "AGENTS.md") = Done true ∧
  ai_rules_page Scenario.calm ws Scenario.ready =
    (Ok tt,
     called Scenario.disk (form_call AI_Rules ws "/srv/delta", None)
       (show
          [ st_spinner "🤖 Generating AI rules... This may take a few minutes.";
            st_success "✅ AI rules generated successfully!";
            st_markdown "### 📄 Generated Files";
            st_expander "📝 CLAUDE.md";
            st_error "❌ AI rules generation failed: 'utf-8' codec can't decode byte 0xff in position 0: invalid start byte" ]
          (mkWorld Scenario.disk (session_state Scenario.ready) [] []
             ["AI rules generation error: 'utf-8' codec can't decode byte 0xff in position 0: invalid start byte"]))).
Proof. repeat split; vm_compute; reflexivity. Qed.

(** C6.  Two invocations of the same page controller with the same widget
    values and the same repository path text pass the same configuration to
    the handler, whatever the two session states, filesystems, screens,
    earlier calls and handlers are. *)
Theorem config_is_function_of_form p ws ext1 w1 ext2 w2 x1 x2 :
  repo_path_field ws w1 = repo_path_field ws w2 →
  x1 ∈ new_calls (controller p ext1 ws) w1 →
  x2 ∈ new_calls (controller p ext2 ws) w2 →
  x1.1 = x2.1.
Proof.
  intros Hrepo. rewrite !new_calls_controller, Hrepo.
  destruct (_ && _); [|by intros ?%elem_of_nil].
  destruct (_ && _); [|by intros _ ?%elem_of_nil].
  by intros ->%list_elem_of_singleton ->%list_elem_of_singleton.
Qed.

(** The same form submitted in a new session and in a session that already
    holds results, with handlers that behave differently. *)
Lemma config_is_function_of_form_witness :
  let ws := Scenario.type_path "/srv/alpha" (Scenario.press "🚀 Start Analysis" ∅) in
  let later := (controller Analysis Scenario.calm ws Scenario.ready).2 in
  let x1 := (form_call Analysis ws "/srv/alpha", None) in
  let x2 := (form_call Analysis ws "/srv/alpha", Some Scenario.RuntimeError) in
  repo_path_field ws Scenario.ready = repo_path_field ws later ∧
  x1 ∈ new_calls (controller Analysis Scenario.calm ws) Scenario.ready ∧
  x2 ∈ new_calls (controller Analysis Scenario.broken ws) later ∧
  x1.1 = x2.1.
Proof.
  intros ws later x1 x2.
  assert (H0 : repo_path_field ws Scenario.ready = repo_path_field ws later)
    by (vm_compute; reflexivity).
  assert (H1 : x1 ∈ new_calls (controller Analysis Scenario.calm ws) Scenario.ready).
  { assert (new_calls (controller Analysis Scenario.calm ws) Scenario.ready = [x1])
      as -> by (vm_compute; reflexivity).
    by apply list_elem_of_singleton. }
  assert (H2 : x2 ∈ new_calls (controller Analysis Scenario.broken ws) later).
  { assert (new_calls (controller Analysis Scenario.broken ws) later = [x2])
      as -> by (vm_compute; reflexivity).
    by apply list_elem_of_singleton. }
  split; [exact H0|]. split; [exact H1|]. split; [exact H2|].
  exact (config_is_function_of_form Analysis ws Scenario.calm Scenario.ready
           Scenario.broken later x1 x2 H0 H1 H2).
Defined.

(** C7.  Every handler call the README page makes is a [ReadmeHandler] call
    whose configuration has [exclude_additional_documentation] false. *)
Theorem readme_keeps_additional_documentation ext ws w :
  Forall (λ x, ∃ c, x.1 = CallReadme c ∧
                    ReadmeHandlerConfig.exclude_additional_documentation c = false)
         (new_calls (readme_page ext ws) w).
Proof.
  change (readme_page ext ws) with (controller README ext ws).
  rewrite new_calls_controller. destruct (_ && _); [|constructor].
  repeat constructor. by eexists.
Qed.

Lemma st_number_input_range ws label min_value max_value default :
  min_value ≤ default ≤ max_value →
  min_value ≤ st_number_input ws label min_value max_value default ≤ max_value.
Proof.
  intros Hd. unfold st_number_input.
  destruct (ws !! label) as [[| z | |]|]; try done.
  destruct (Z.leb_spec min_value z), (Z.leb_spec z max_value); simpl; lia.
Qed.

Lemma st_selectbox_option ws label options index :
  (index < length options)%nat → st_selectbox ws label options index ∈ options.
Proof.
  intros Hi. unfold st_selectbox.
  assert (List.nth index options "" ∈ options) as Hd.
  { apply list_elem_of_In, nth_In. lia. }
  destruct (ws !! label) as [[| z | |]|]; try done.
  destruct (Z.leb_spec 0 z), (Z.ltb_spec z (Z.of_nat (length options))); simpl; try done.
  apply list_elem_of_In, nth_In. lia.
Qed.

(** C8.  Every handler call the Analysis page makes carries [max_workers]
    between 0 and 20, and every handler call the AI rules page makes carries
    one of the three detail levels, [max_claude_lines] between 100 and 2000
    and [max_agents_lines] between 50 and 500: the widgets yield no other
    values. *)
Theorem config_fields_in_range ext ws w :
  Forall (λ x, ∃ c, x.1 = CallAnalyze c ∧
                    0 ≤ AnalyzeHandlerConfig.max_workers c ≤ 20)
         (new_calls (analyze_page ext ws) w) ∧
  Forall (λ x, ∃ c, x.1 = CallAIRules c ∧
                    AIRulesHandlerConfig.detail_level c
                      ∈ ["minimal"; "standard"; "comprehensive"] ∧
                    100 ≤ AIRulesHandlerConfig.max_claude_lines c ≤ 2000 ∧
                    50 ≤ AIRulesHandlerConfig.max_agents_lines c ≤ 500)
         (new_calls (ai_rules_page ext ws) w).
Proof.
  change (analyze_page ext ws) with (controller Analysis ext ws).
  change (ai_rules_page ext ws) with (controller AI_Rules ext ws).
  rewrite !new_calls_controller. split.
  - destruct (_ && _); [|constructor]. repeat constructor.
    eexists; split; [reflexivity|]. by apply st_number_input_range.
  - destruct (_ && _); [|constructor]. repeat constructor.
    eexists; split; [reflexivity|]. split; [|split].
    + apply st_selectbox_option. simpl. lia.
    + by apply st_number_input_range.
    + by apply st_number_input_range.
Qed.

(** ** The files the Analysis page displays *)

(** When the handler returned and the scan of the output directory found
    it, the page stores the directory's [*.md] entries and, when each of
    them reads as text, displays exactly those. *)
Lemma analysis_displays_scanned_files ext ws w c files :
  (CallAnalyze c, None) ∈ new_calls (analyze_page ext ws) w →
  let run := analyze_page ext ws w in
  let f := after_call Analysis ext ws w in
  let docs := AnalyzeHandlerConfig.repo_path c // ".ai" // "docs" in
  path_exists f docs = Done true →
  glob_md f docs = Done files →
  session_state run.2 !! "generated_files" = Some (VList files) ∧
  ∀ texts, read_all f files = Some texts →
    run.1 = Ok tt ∧
    new_screen (analyze_page ext ws) w =
      [ st_spinner (spinner_text Analysis);
        st_success "✅ Analysis completed successfully!" ] ++
      match texts with
      | [] => []
      | _ => st_markdown "### 📄 Generated Analysis Files"
             :: concat (List.map (λ pt, file_view pt.1 pt.2) texts)
      end.
Proof.
  change (analyze_page ext ws) with (controller Analysis ext ws).
  intros (Hb & He & [= ->] & Ho)%new_call_inv.
  unfold new_screen, after_call, controller, submit_button in *.
  rewrite analyze_page_submitted by done. cbv zeta. rewrite <- Ho.
  destruct (handler_outcome Analysis ext ws w) as [f' o]. cbn [fst snd].
  intros Hd Hg. unfold scan. simpl in Hd, Hg. rewrite Hd, Hg.
  rewrite analyze_display_session. simpl.
  split; [apply lookup_insert_eq|].
  intros texts Hr.
  erewrite analyze_display_complete; cycle 1.
  { simpl. unfold finished. by rewrite lookup_insert_ne, lookup_insert_eq. }
  { simpl. apply lookup_insert_eq. }
  destruct files as [|q files].
  - simpl in Hr. injection Hr as <-. simpl. by rewrite <- !app_assoc, drop_own_length.
  - erewrite show_files_run by exact Hr. simpl.
    rewrite <- !app_assoc, drop_own_length. simpl.
    split; [done|]. destruct texts as [|t texts]; [|done].
    by apply read_all_nil in Hr.
Qed.

(** When the handler returned and [exists()] says that the output
    directory is not there, the page marks the analysis complete and leaves
    [generated_files] as the previous run set it. *)
Lemma analysis_keeps_old_files ext ws w c :
  (CallAnalyze c, None) ∈ new_calls (analyze_page ext ws) w →
  let run := analyze_page ext ws w in
  let f := after_call Analysis ext ws w in
  let docs := AnalyzeHandlerConfig.repo_path c // ".ai" // "docs" in
  path_exists f docs = Done false →
  session_state run.2 !! "analysis_complete" = Some (VBool true) ∧
  session_state run.2 !! "generated_files" = session_state w !! "generated_files".
Proof.
  change (analyze_page ext ws) with (controller Analysis ext ws).
  intros (Hb & He & [= ->] & Ho)%new_call_inv.
  unfold after_call, controller, submit_button in *.
  rewrite analyze_page_submitted by done. cbv zeta. rewrite <- Ho.
  destruct (handler_outcome Analysis ext ws w) as [f' o]. cbn [fst snd].
  intros Hd. unfold scan. simpl in Hd. rewrite Hd.
  rewrite analyze_display_session. simpl. unfold finished, started.
  split; [apply lookup_insert_eq|]. by rewrite !lookup_insert_ne.
Qed.

(** C3 fails on the code.  A first analysis of [/srv/alpha] finds
    [structure.md]; a second analysis, of [/srv/beta], returns without
    raising and [/srv/beta/.ai/docs] does not exist; the page then displays
    the file of the first run. *)
Theorem analysis_displays_stale_files :
  let ws_alpha := Scenario.press "🚀 Start Analysis" ∅ in
  let ws_beta := Scenario.type_path "/srv/beta" ws_alpha in
  let first := rerun Scenario.calm ws_alpha Scenario.fresh in
  let second := rerun Scenario.calm ws_beta first.2 in
  new_calls (rerun Scenario.calm ws_beta) first.2 =
    [(CallAnalyze (analyze_form ws_beta "/srv/beta"), None)] ∧
  path_exists (fs second.2) (Path "/srv/beta" // ".ai" // "docs") = Done false ∧
  glob_md (fs second.2) (Path "/srv/beta" // ".ai" // "docs") = Done [] ∧
  second.1 = Ok tt ∧
  screen second.2 =
    [ st_spinner "🔍 Analyzing repository... This may take several minutes with local Ollama models.";
      st_success "✅ Analysis completed successfully!";
      st_markdown "### 📄 Generated Analysis Files";
      st_expander "📝 structure.md";
      st_markdown "# Structure";
      st_download_button "⬇️ Download" "# Structure" "structure.md" "text/markdown" ].
Proof.
  intros ws_alpha ws_beta first second.
  repeat split; vm_compute; reflexivity.
Qed.

(** ** The whole script *)

Lemma init_session_state_run w :
  init_session_state w = (Ok tt, with_session (initialised (session_state w)) w).
Proof.
  unfold init_session_state, bind, session_contains, session_set, ret, with_session,
    initialised, initial; simpl.
  destruct (session_state w !! "analysis_running"); simpl;
    (destruct (_ !! "analysis_complete"); simpl);
    (destruct (_ !! "generated_files"); simpl); by destruct w.
Qed.

Lemma initial_lookup key v s key' :
  initial key v s !! key' =
    match s !! key' with
    | Some x => Some x
    | None => if decide (key = key') then Some v else None
    end.
Proof.
  unfold initial. destruct (s !! key) as [x|] eqn:E.
  - destruct (s !! key') eqn:E'; [done|]. case_decide; congruence.
  - rewrite lookup_insert. case_decide; subst; [by rewrite E|].
    by destruct (s !! key').
Qed.

Lemma route_cases ext ws page :
  (∃ p, route ext ws page = controller p ext ws) ∨
  route ext ws page = about_page ∨ route ext ws page = ret tt.
Proof.
  unfold route.
  destruct (String.eqb page _); [left; by exists Analysis|].
  destruct (String.eqb page _); [left; by exists README|].
  destruct (String.eqb page _); [left; by exists AI_Rules|].
  destruct (String.eqb page _); auto.
Qed.

(** One run of the script starts the selected page in the initialised
    session, on an empty screen. *)
Lemma rerun_run ext ws w :
  rerun ext ws w =
    route ext ws
      (st_radio ws "Navigation" ["📊 Analysis"; "📖 README"; "🤖 AI Rules"; "ℹ️ About"])
      (mkWorld (fs w) (initialised (session_state w)) [] (calls w) (log w)).
Proof. unfold rerun, main, bind. by rewrite init_session_state_run. Qed.

(** From a new session on, [analysis_running] is false after every run of
    the script in which the handler raises nothing but [Exception]s. *)
Lemma rerun_keeps_idle ext ws w :
  session_state w !! "analysis_running" = None ∨ idle w →
  (∀ c e, (c, Some e) ∈ new_calls (rerun ext ws) w → is_Exception e = true) →
  idle (rerun ext ws w).2.
Proof.
  intros Hs Hexn. unfold new_calls in Hexn. rewrite rerun_run in *.
  set (w1 := mkWorld (fs w) (initialised (session_state w)) [] (calls w) (log w)) in *.
  assert (idle w1) as Hi.
  { unfold idle, w1, initialised; simpl. rewrite !initial_lookup.
    destruct Hs as [->| ->]; by repeat case_decide. }
  destruct (route_cases ext ws (st_radio ws "Navigation"
              ["📊 Analysis"; "📖 README"; "🤖 AI Rules"; "ℹ️ About"]))
    as [[p Hr]|[Hr|Hr]]; rewrite Hr in *; [|done..].
  by apply controller_keeps_idle.
Qed.

(** A run of the script on any page but Analysis leaves an initialised
    session state as it is. *)
Lemma rerun_elsewhere_keeps_session ext ws w :
  (∀ key, key ∈ ["analysis_running"; "analysis_complete"; "generated_files"] →
          is_Some (session_state w !! key)) →
  st_radio ws "Navigation" ["📊 Analysis"; "📖 README"; "🤖 AI Rules"; "ℹ️ About"]
    ≠ "📊 Analysis" →
  session_state (rerun ext ws w).2 = session_state w.
Proof.
  intros Hkeys Hpage. rewrite rerun_run.
  assert (initialised (session_state w) = session_state w) as ->.
  { unfold initialised, initial.
    destruct (Hkeys "analysis_running") as [? ->]; [set_solver|].
    destruct (Hkeys "analysis_complete") as [? ->]; [set_solver|].
    by destruct (Hkeys "generated_files") as [? ->]; [set_solver|]. }
  unfold route. apply String.eqb_neq in Hpage. rewrite Hpage. clear Hpage.
  destruct (String.eqb _ _); cbv beta iota; [by rewrite readme_page_session|].
  destruct (String.eqb _ _); cbv beta iota; [by rewrite ai_rules_page_session|].
  by destruct (String.eqb _ _).
Qed.

(** ** Further properties of the script *)

Lemma session_set_other key k v :
  key ≠ k → preserves (λ w, session_state w !! key) (session_set k v).
Proof. intros Hne w. simpl. by rewrite lookup_insert_ne. Qed.

Lemma preserves_lookup {A} key (m : M A) :
  preserves session_state m → preserves (λ w, session_state w !! key) m.
Proof. intros Hm w. simpl. by rewrite Hm. Qed.

(** The frame tactic for one attribute other than the three the script
    owns. *)
Ltac frame_attribute :=
  repeat first
    [ apply preserves_bind; [|intros ?]
    | apply preserves_try_except; [|intros ?]
    | apply preserves_for_each; intros ?
    | apply preserves_if
    | apply session_set_other; congruence
    | apply preserves_lookup; solve [eauto with frame]
    | match goal with |- preserves _ (let '(_, _) := ?x in _) => destruct x end
    | match goal with |- preserves _ (match ?x with _ => _ end) => destruct x end ].

(** The script owns three attributes of the session state and touches no
    other: whatever page runs and whatever the handler does, every other
    attribute is after the run what it was before. *)
Theorem script_keeps_other_attributes ext ws w key :
  key ≠ "analysis_running" → key ≠ "analysis_complete" → key ≠ "generated_files" →
  session_state (rerun ext ws w).2 !! key = session_state w !! key.
Proof.
  intros H1 H2 H3. unfold rerun.
  assert (preserves (λ w, session_state w !! key) (main ext ws)) as Hmain.
  { unfold main, init_session_state, route, about_page,
      analyze_page, analyze_try, analyze_except, analyze_display, show_file, py_and,
      run_analysis, readme_page, readme_try, readme_display, readme_except,
      run_readme_generation, ai_rules_page, ai_rules_try, ai_rules_display,
      ai_rules_except, run_ai_rules_generation, ai_rules_display_one, show_rule.
    frame_attribute. }
  by rewrite Hmain.
Qed.

Lemma script_keeps_other_attributes_witness :
  let ws := Scenario.press "🚀 Start Analysis" ∅ in
  let w := mkWorld Scenario.disk (<["theme" := VStr "dark"]> ∅) [] [] [] in
  "theme" ≠ "analysis_running" ∧ "theme" ≠ "analysis_complete" ∧
  "theme" ≠ "generated_files" ∧
  session_state (rerun Scenario.calm ws w).2 !! "theme" = Some (VStr "dark").
Proof.
  intros ws w.
  assert (H1 : "theme" ≠ "analysis_running") by discriminate.
  assert (H2 : "theme" ≠ "analysis_complete") by discriminate.
  assert (H3 : "theme" ≠ "generated_files") by discriminate.
  split; [exact H1|]. split; [exact H2|]. split; [exact H3|].
  rewrite (script_keeps_other_attributes Scenario.calm ws w "theme" H1 H2 H3).
  vm_compute. reflexivity.
Defined.

(** A page controller calls its own handler once when its button is pressed
    and [exists()] returns [True] for the path, with the configuration of
    the form, and calls no handler otherwise. *)
Theorem page_calls_its_handler_once p ext ws w :
  new_calls (controller p ext ws) w =
    if st_button ws (submit_button p) && path_found (fs w) (Path (repo_path_field ws w))
    then [(form_call p ws (repo_path_field ws w), (handler_outcome p ext ws w).2)]
    else [].
Proof. apply new_calls_controller. Qed.

(** The page controllers write the filesystem only through the handler call
    and through the [Logger.error] call of the [except] block: after an
    invocation the filesystem is the one the handler left (the one the
    controller found, when no handler was called), or what one
    [Logger.error] call with the page's message made of it. *)
Theorem page_writes_through_handler_and_logger p ext ws w :
  let base :=
    if st_button ws (submit_button p) && path_found (fs w) (Path (repo_path_field ws w))
    then after_call p ext ws w
    else fs w in
  fs (controller p ext ws w).2 = base ∨
  ∃ text, fs (controller p ext ws w).2 = (Logger_error ext (log_prefix p +:+ text) base).1.
Proof.
  cbv zeta. destruct (st_button ws (submit_button p)) eqn:Hb; cbn [andb].
  2:{ left. rewrite controller_idle by done.
      destruct p; [apply analyze_display_fs|done..]. }
  unfold path_found, after_call.
  destruct (path_exists (fs w) _) as [[]|text] eqn:He.
  2:{ left. by rewrite controller_nonexistent. }
  2:{ left. by rewrite (controller_unchecked _ _ _ _ text). }
  destruct (Analysis_or_not p) as [->|Hp].
  - unfold controller, submit_button in *.
    rewrite analyze_page_submitted by done. cbv zeta.
    destruct (handler_outcome Analysis ext ws w) as [f' [e|]]; cbn [fst snd].
    + destruct (is_Exception e); cbn [snd]; [right; by exists (message e)|by left].
    + destruct (scan _ _) as [found|text];
        [left|right; exists text]; by rewrite analyze_display_fs.
  - rewrite results_page_submitted by done. cbv zeta.
    destruct (handler_outcome p ext ws w) as [f' [e|]]; cbn [fst snd].
    + destruct (is_Exception e); cbn [snd]; [right; by exists (message e)|by left].
    + destruct (results_rendering p f' _).2 as [text|]; cbn [snd];
        [right; by exists text|by left].
Qed.

Lemma after_failure_logged p ext e w :
  log (after_failure p ext e w) = log w ∨
  log (after_failure p ext e w) = log w ++ [log_prefix p +:+ message e].
Proof.
  rewrite after_failure_log.
  destruct (Logger_error ext _ _).2; [left; by rewrite app_nil_r | by right].
Qed.

(** [Logger.error] is called at most once in an invocation of a page
    controller, and only behind an error message: when the log has grown, it
    has grown by one entry, and the error message with the same exception
    text is on the screen.  The message is the last element on the screen,
    except on the Analysis page when the handler returned and the scan of
    the output directory failed: the display block then runs after the
    [except] block, and what it renders follows the message. *)
Theorem log_follows_error_message p ext ws w :
  log (controller p ext ws w).2 = log w ∨
  ∃ text before later,
    log (controller p ext ws w).2 = log w ++ [log_prefix p +:+ text] ∧
    new_screen (controller p ext ws) w =
      before ++ st_error (failure_prefix p +:+ text) :: later ∧
    (later = [] ∨
     p = Analysis ∧ (handler_outcome p ext ws w).2 = None ∧
     scan (repo_path_field ws w) (after_call p ext ws w) = Failed text).
Proof.
  destruct (st_button ws (submit_button p)) eqn:Hb.
  2:{ left. rewrite controller_idle by done.
      destruct p; [apply analyze_display_log|done..]. }
  destruct (path_exists (fs w) (Path (repo_path_field ws w))) as [[]|text] eqn:He.
  2:{ left. by rewrite controller_nonexistent. }
  2:{ left. by rewrite (controller_unchecked _ _ _ _ text). }
  unfold new_screen, after_call.
  destruct (Analysis_or_not p) as [->|Hp].
  - unfold controller, submit_button in *.
    rewrite analyze_page_submitted by done. cbv zeta.
    destruct (handler_outcome Analysis ext ws w) as [f' [e|]]; cbn [fst snd].
    + destruct (is_Exception e); cbn [snd]; [|by left].
      match goal with |- context [after_failure ?p ?x ?y ?z] =>
        destruct (after_failure_logged p x y z) as [Hl|Hl] end; [by left|right].
      exists (message e), [st_spinner (spinner_text Analysis)], [].
      rewrite Hl, after_failure_screen. simpl.
      rewrite <- !app_assoc, drop_own_length. by auto.
    + destruct (scan _ _) as [found|text]; [left; by rewrite analyze_display_log|].
      match goal with |- context [after_failure ?p ?x ?y ?z] =>
        destruct (after_failure_logged p x y z) as [Hl|Hl];
        destruct (analyze_display_screen (after_failure p x y z)) as [later Hs]
      end; [left; by rewrite analyze_display_log|right].
      exists text, [st_spinner (spinner_text Analysis)], later.
      rewrite analyze_display_log, Hl, Hs, after_failure_screen. simpl.
      rewrite <- !app_assoc, drop_own_length. simpl.
      split; [done|]. split; [done|]. right. by repeat split.
  - rewrite results_page_submitted by done. cbv zeta.
    destruct (handler_outcome p ext ws w) as [f' [e|]]; cbn [fst snd].
    + destruct (is_Exception e); cbn [snd]; [|by left].
      match goal with |- context [after_failure ?p ?x ?y ?z] =>
        destruct (after_failure_logged p x y z) as [Hl|Hl] end; [by left|right].
      exists (message e), [st_spinner (spinner_text p)], [].
      rewrite Hl, after_failure_screen. simpl.
      rewrite <- !app_assoc, drop_own_length. by auto.
    + destruct (results_rendering p f' _).2 as [text|]; cbn [snd]; [|by left].
      match goal with |- context [after_failure ?p ?x ?y ?z] =>
        destruct (after_failure_logged p x y z) as [Hl|Hl] end; [by left|right].
      exists text, (st_spinner (spinner_text p) :: st_success (success_text p)
                      :: (results_rendering p f' (repo_path_field ws w)).1), [].
      rewrite Hl, after_failure_screen. simpl.
      rewrite <- !app_assoc, drop_own_length. simpl. by auto.
Qed.



(** The README page and the AI rules page are left by an exception in two
    cases only: the handler call raised one that is not an [Exception], or
    the [exists()] check of the repository path, which precedes the [try]
    statement, raised.  Everything else, a failure while rendering the
    results included, ends in the [except] block and the controller
    returns. *)
Theorem readme_and_ai_rules_exits ext ws w :
  Forall (λ p,
    (controller p ext ws w).1 = Ok tt ∨
    (∃ c e, new_calls (controller p ext ws) w = [(c, Some e)] ∧
            is_Exception e = false ∧ (controller p ext ws w).1 = Raise e) ∨
    (∃ text, st_button ws (submit_button p) = true ∧
             path_exists (fs w) (Path (repo_path_field ws w)) = Failed text ∧
             new_calls (controller p ext ws) w = [] ∧
             (controller p ext ws w).1 = Raise (library_error text)))
    [README; AI_Rules].
Proof.
  assert (∀ p, p ≠ Analysis →
    (controller p ext ws w).1 = Ok tt ∨
    (∃ c e, new_calls (controller p ext ws) w = [(c, Some e)] ∧
            is_Exception e = false ∧ (controller p ext ws w).1 = Raise e) ∨
    (∃ text, st_button ws (submit_button p) = true ∧
             path_exists (fs w) (Path (repo_path_field ws w)) = Failed text ∧
             new_calls (controller p ext ws) w = [] ∧
             (controller p ext ws w).1 = Raise (library_error text))) as Hexits.
  { intros p Hp. rewrite new_calls_controller. unfold path_found.
    destruct (st_button ws (submit_button p)) eqn:Hb.
    2:{ left. rewrite controller_idle by done. by destruct p. }
    destruct (path_exists (fs w) _) as [[]|text] eqn:He; cbn [andb].
    2:{ left. by rewrite controller_nonexistent. }
    2:{ right; right. exists text. by rewrite (controller_unchecked p ext ws w text). }
    rewrite results_page_submitted by done. cbv zeta.
    destruct (handler_outcome p ext ws w) as [f' [e|]]; cbn [fst snd].
    - destruct (is_Exception e) eqn:Hc; [by left|right; left]. by eexists _, e.
    - left. by destruct (results_rendering p f' _).2. }
  constructor; [by apply Hexits|]. constructor; [by apply Hexits|]. constructor.
Qed.

(** An exception of the handler call that is not an [Exception] leaves the
    page controller as it was raised: only the spinner was shown, nothing is
    logged, and on the Analysis page the flags stay as set on entry,
    [analysis_running] true and [analysis_complete] false. *)
Theorem handler_BaseException_propagates p ext ws w c e :
  (c, Some e) ∈ new_calls (controller p ext ws) w →
  is_Exception e = false →
  (controller p ext ws w).1 = Raise e ∧
  new_screen (controller p ext ws) w = [st_spinner (spinner_text p)] ∧
  log (controller p ext ws w).2 = log w ∧
  (p = Analysis →
   session_state (controller p ext ws w).2 !! "analysis_running" = Some (VBool true) ∧
   session_state (controller p ext ws w).2 !! "analysis_complete" = Some (VBool false)).
Proof.
  intros (Hb & He & -> & Ho)%new_call_inv Hc.
  unfold new_screen. rewrite (controller_on_BaseException p ext ws w e) by done. simpl.
  split; [done|]. split; [by rewrite drop_own_length|]. split; [done|].
  intros ->. simpl. unfold started.
  by rewrite lookup_insert_eq, lookup_insert_ne, lookup_insert_eq.
Qed.

Lemma handler_BaseException_propagates_witness :
  let ws := Scenario.press "🚀 Start Analysis" ∅ in
  let c := form_call Analysis ws "/srv/alpha" in
  let run := controller Analysis Scenario.interrupted ws Scenario.ready in
  (c, Some Scenario.SystemExit)
    ∈ new_calls (controller Analysis Scenario.interrupted ws) Scenario.ready ∧
  is_Exception Scenario.SystemExit = false ∧
  run.1 = Raise Scenario.SystemExit ∧
  new_screen (controller Analysis Scenario.interrupted ws) Scenario.ready =
    [st_spinner (spinner_text Analysis)] ∧
  log run.2 = log Scenario.ready.
Proof.
  intros ws c run.
  assert (Hin : (c, Some Scenario.SystemExit)
                  ∈ new_calls (controller Analysis Scenario.interrupted ws) Scenario.ready).
  { assert (new_calls (controller Analysis Scenario.interrupted ws) Scenario.ready
            = [(c, Some Scenario.SystemExit)]) as -> by (vm_compute; reflexivity).
    by apply list_elem_of_singleton. }
  assert (Hc : is_Exception Scenario.SystemExit = false) by reflexivity.
  split; [exact Hin|]. split; [exact Hc|].
  destruct (handler_BaseException_propagates Analysis Scenario.interrupted ws Scenario.ready
              c Scenario.SystemExit Hin Hc) as (H1 & H2 & H3 & _).
  by repeat split.
Defined.

(** After a submitted analysis, [analysis_complete] tells whether the
    handler returned: it is true, with [analysis_running] false, when the
    handler returned; when the handler raised it is false, and the stored
    [generated_files] are the ones of before. *)
Theorem analysis_complete_iff_handler_returned ext ws w c o :
  (c, o) ∈ new_calls (analyze_page ext ws) w →
  let s' := session_state (analyze_page ext ws w).2 in
  match o with
  | None =>
      s' !! "analysis_complete" = Some (VBool true) ∧
      s' !! "analysis_running" = Some (VBool false)
  | Some e =>
      s' !! "analysis_complete" = Some (VBool false) ∧
      s' !! "analysis_running" = Some (VBool (negb (is_Exception e))) ∧
      s' !! "generated_files" = session_state w !! "generated_files"
  end.
Proof. apply analysis_flags_after_call. Qed.

Lemma analysis_complete_iff_handler_returned_witness :
  let ws := Scenario.press "🚀 Start Analysis" ∅ in
  let c := form_call Analysis ws "/srv/alpha" in
  let s' := session_state (analyze_page Scenario.broken ws Scenario.ready).2 in
  (c, Some Scenario.RuntimeError) ∈ new_calls (analyze_page Scenario.broken ws) Scenario.ready ∧
  s' !! "analysis_complete" = Some (VBool false) ∧
  s' !! "analysis_running" = Some (VBool false) ∧
  s' !! "generated_files" = Some (VList []).
Proof.
  intros ws c s'.
  assert (Hin : (c, Some Scenario.RuntimeError)
                  ∈ new_calls (analyze_page Scenario.broken ws) Scenario.ready).
  { assert (new_calls (analyze_page Scenario.broken ws) Scenario.ready
            = [(c, Some Scenario.RuntimeError)]) as -> by (vm_compute; reflexivity).
    by apply list_elem_of_singleton. }
  split; [exact Hin|].
  exact (analysis_complete_iff_handler_returned Scenario.broken ws Scenario.ready c
           (Some Scenario.RuntimeError) Hin).
Defined.

(** A failed analysis hides the results of earlier runs: once the handler
    has raised an [Exception], rendering the Analysis page again without
    pressing the button shows nothing and changes nothing, whatever
    [generated_files] still holds. *)
Theorem failed_analysis_hides_results ext ws w c e ext' ws' :
  (c, Some e) ∈ new_calls (analyze_page ext ws) w →
  is_Exception e = true →
  st_button ws' "🚀 Start Analysis" = false →
  analyze_page ext' ws' (analyze_page ext ws w).2 = (Ok tt, (analyze_page ext ws w).2).
Proof.
  intros Hin Hc Hb'. rewrite analyze_page_idle by done.
  apply analyze_display_incomplete.
  by destruct (analysis_flags_after_call ext ws w c (Some e) Hin) as [-> _].
Qed.

Lemma failed_analysis_hides_results_witness :
  let ws := Scenario.press "🚀 Start Analysis" ∅ in
  let c := form_call Analysis ws "/srv/alpha" in
  let first := (analyze_page Scenario.calm ws Scenario.ready).2 in
  let second := (analyze_page Scenario.broken ws first).2 in
  session_state first !! "generated_files"
    = Some (VList [Path "/srv/alpha/.ai/docs/structure.md"]) ∧
  (c, Some Scenario.RuntimeError) ∈ new_calls (analyze_page Scenario.broken ws) first ∧
  is_Exception Scenario.RuntimeError = true ∧
  st_button ∅ "🚀 Start Analysis" = false ∧
  analyze_page Scenario.calm ∅ second = (Ok tt, second).
Proof.
  intros ws c first second.
  assert (Hin : (c, Some Scenario.RuntimeError)
                  ∈ new_calls (analyze_page Scenario.broken ws) first).
  { assert (new_calls (analyze_page Scenario.broken ws) first
            = [(c, Some Scenario.RuntimeError)]) as -> by (vm_compute; reflexivity).
    by apply list_elem_of_singleton. }
  assert (Hc : is_Exception Scenario.RuntimeError = true) by reflexivity.
  assert (Hb : st_button ∅ "🚀 Start Analysis" = false) by reflexivity.
  split; [vm_compute; reflexivity|].
  split; [exact Hin|]. split; [exact Hc|]. split; [exact Hb|].
  exact (failed_analysis_hides_results Scenario.broken ws first c Scenario.RuntimeError
           Scenario.calm ∅ Hin Hc Hb).
Defined.

(** Results persist across reruns: rendering the Analysis page without
    pressing the button, in a session whose analysis is complete, displays
    the stored files again, each with the text it now reads as, and calls
    no handler.  With an empty list nothing is displayed. *)
Theorem stored_results_are_redisplayed ext ws w files texts :
  st_button ws "🚀 Start Analysis" = false →
  session_state w !! "analysis_complete" = Some (VBool true) →
  session_state w !! "generated_files" = Some (VList files) →
  read_all (fs w) files = Some texts →
  analyze_page ext ws w =
    (Ok tt,
     show match texts with
          | [] => []
          | _ => st_markdown "### 📄 Generated Analysis Files"
                 :: concat (List.map (λ pt, file_view pt.1 pt.2) texts)
          end w).
Proof.
  intros Hb Hc Hg Hr. rewrite analyze_page_idle by done.
  rewrite (analyze_display_complete w files Hc Hg).
  destruct files as [|q files].
  - simpl in Hr. injection Hr as <-. by rewrite show_nil.
  - erewrite show_files_run by exact Hr. rewrite show_show.
    destruct texts as [|t texts]; [|done].
    by apply read_all_nil in Hr.
Qed.

Lemma stored_results_are_redisplayed_witness :
  let w := (analyze_page Scenario.calm (Scenario.press "🚀 Start Analysis" ∅)
              Scenario.ready).2 in
  let structure := Path "/srv/alpha/.ai/docs/structure.md" in
  st_button ∅ "🚀 Start Analysis" = false ∧
  session_state w !! "analysis_complete" = Some (VBool true) ∧
  session_state w !! "generated_files" = Some (VList [structure]) ∧
  read_all (fs w) [structure] = Some [(structure, "# Structure")] ∧
  analyze_page Scenario.broken ∅ w =
    (Ok tt, show [ st_markdown "### 📄 Generated Analysis Files";
                   st_expander "📝 structure.md";
                   st_markdown "# Structure";
                   st_download_button "⬇️ Download" "# Structure" "structure.md"
                     "text/markdown" ] w).
Proof.
  intros w structure.
  assert (Hb : st_button ∅ "🚀 Start Analysis" = false) by reflexivity.
  assert (Hc : session_state w !! "analysis_complete" = Some (VBool true))
    by (vm_compute; reflexivity).
  assert (Hg : session_state w !! "generated_files" = Some (VList [structure]))
    by (vm_compute; reflexivity).
  assert (Hr : read_all (fs w) [structure] = Some [(structure, "# Structure")])
    by (vm_compute; reflexivity).
  split; [exact Hb|]. split; [exact Hc|]. split; [exact Hg|]. split; [exact Hr|].
  exact (stored_results_are_redisplayed Scenario.broken ∅ w [structure]
           [(structure, "# Structure")] Hb Hc Hg Hr).
Defined.

(** The display block of the Analysis page is outside the [try] statement:
    when a stored file can no longer be read, the exception of [read_text]
    leaves the page controller, after the files before it and the expander
    of the unreadable one were rendered. *)
Theorem unreadable_stored_file_escapes ext ws w pre q post texts text :
  st_button ws "🚀 Start Analysis" = false →
  session_state w !! "analysis_complete" = Some (VBool true) →
  session_state w !! "generated_files" = Some (VList (pre ++ q :: post)) →
  read_all (fs w) pre = Some texts →
  read_text (fs w) q = Failed text →
  analyze_page ext ws w =
    (Raise (library_error text),
     show (st_markdown "### 📄 Generated Analysis Files"
           :: concat (List.map (λ pt, file_view pt.1 pt.2) texts)
           ++ [st_expander ("📝 " +:+ name q)]) w).
Proof.
  intros Hb Hc Hg Hr Hq. rewrite analyze_page_idle by done.
  rewrite (analyze_display_complete w _ Hc Hg).
  destruct (pre ++ q :: post) as [|x l] eqn:El; [by destruct pre|].
  rewrite <- El. erewrite show_file_stop by eassumption. by rewrite show_show.
Qed.

Lemma unreadable_stored_file_escapes_witness :
  let structure := Path "/srv/alpha/.ai/docs/structure.md" in
  let api := Path "/srv/alpha/.ai/docs/api.md" in
  let w := mkWorld Scenario.disk
             (<["generated_files" := VList [structure; api]]>
                (<["analysis_complete" := VBool true]>
                   (<["analysis_running" := VBool false]> ∅))) [] [] [] in
  st_button ∅ "🚀 Start Analysis" = false ∧
  session_state w !! "analysis_complete" = Some (VBool true) ∧
  session_state w !! "generated_files" = Some (VList ([structure] ++ api :: [])) ∧
  read_all (fs w) [structure] = Some [(structure, "# Structure")] ∧
  read_text (fs w) api = Failed (FileNotFoundError api) ∧
  analyze_page Scenario.calm ∅ w =
    (Raise (library_error (FileNotFoundError api)),
     show [ st_markdown "### 📄 Generated Analysis Files";
            st_expander "📝 structure.md";
            st_markdown "# Structure";
            st_download_button "⬇️ Download" "# Structure" "structure.md" "text/markdown";
            st_expander "📝 api.md" ] w).
Proof.
  intros structure api w.
  assert (Hb : st_button ∅ "🚀 Start Analysis" = false) by reflexivity.
  assert (Hc : session_state w !! "analysis_complete" = Some (VBool true))
    by (vm_compute; reflexivity).
  assert (Hg : session_state w !! "generated_files"
               = Some (VList ([structure] ++ api :: [])))
    by (vm_compute; reflexivity).
  assert (Hr : read_all (fs w) [structure] = Some [(structure, "# Structure")])
    by (vm_compute; reflexivity).
  assert (Hq : read_text (fs w) api = Failed (FileNotFoundError api))
    by (vm_compute; reflexivity).
  split; [exact Hb|]. split; [exact Hc|]. split; [exact Hg|]. split; [exact Hr|].
  split; [exact Hq|].
  exact (unreadable_stored_file_escapes Scenario.calm ∅ w [structure] api []
           [(structure, "# Structure")] (FileNotFoundError api) Hb Hc Hg Hr Hq).
Defined.

(** [init_session_state] fills gaps and nothing else: it returns normally,
    an attribute that is set keeps its value, each of the three attributes
    that is missing gets its initial value, and running it a second time
    changes nothing. *)
Theorem init_session_state_fills_gaps w :
  let run := init_session_state w in
  run.1 = Ok tt ∧
  run.2 = with_session (session_state run.2) w ∧
  (∀ key v, session_state w !! key = Some v → session_state run.2 !! key = Some v) ∧
  session_state run.2 !! "analysis_running"
    = Some (default (VBool false) (session_state w !! "analysis_running")) ∧
  session_state run.2 !! "analysis_complete"
    = Some (default (VBool false) (session_state w !! "analysis_complete")) ∧
  session_state run.2 !! "generated_files"
    = Some (default (VList []) (session_state w !! "generated_files")) ∧
  (∀ key, session_state w !! key = None →
          key ≠ "analysis_running" → key ≠ "analysis_complete" →
          key ≠ "generated_files" → session_state run.2 !! key = None) ∧
  init_session_state run.2 = (Ok tt, run.2).
Proof.
  cbv zeta. rewrite !init_session_state_run. cbn [fst snd].
  assert (∀ key, initialised (session_state w) !! key =
            match session_state w !! key with
            | Some x => Some x
            | None =>
                if decide (key = "analysis_running") then Some (VBool false)
                else if decide (key = "analysis_complete") then Some (VBool false)
                else if decide (key = "generated_files") then Some (VList [])
                else None
            end) as Hlook.
  { intros key. unfold initialised. rewrite !initial_lookup.
    destruct (session_state w !! key); [done|]. by repeat case_decide. }
  split; [done|]. split; [done|].
  split; [intros key v Hv; by rewrite Hlook, Hv|].
  split; [rewrite Hlook; by destruct (session_state w !! _)|].
  split; [rewrite Hlook; by destruct (session_state w !! _)|].
  split; [rewrite Hlook; by destruct (session_state w !! _)|].
  split; [intros key Hk H1 H2 H3; rewrite Hlook, Hk; by repeat case_decide|].
  f_equal. unfold with_session; simpl. f_equal.
  apply map_eq. intros key. unfold initialised at 1. rewrite !initial_lookup, !Hlook.
  destruct (session_state w !! key); [done|]. by repeat case_decide.
Qed.

(** [main] runs the page chosen in the sidebar, Analysis when nothing was
    chosen, in the initialised session: the four navigation entries lead to
    the Analysis, README and AI rules controllers and to the About page,
    which calls no handler and leaves the world alone. *)
Theorem main_routes_to_selected_page ext ws w :
  let w1 := mkWorld (fs w) (initialised (session_state w)) [] (calls w) (log w) in
  rerun ext (delete "Navigation" ws) w = analyze_page ext (delete "Navigation" ws) w1 ∧
  rerun ext (<["Navigation" := VInt 0]> ws) w
    = analyze_page ext (<["Navigation" := VInt 0]> ws) w1 ∧
  rerun ext (<["Navigation" := VInt 1]> ws) w
    = readme_page ext (<["Navigation" := VInt 1]> ws) w1 ∧
  rerun ext (<["Navigation" := VInt 2]> ws) w
    = ai_rules_page ext (<["Navigation" := VInt 2]> ws) w1 ∧
  rerun ext (<["Navigation" := VInt 3]> ws) w = (Ok tt, w1).
Proof.
  cbv zeta. rewrite !rerun_run. unfold st_radio, st_selectbox.
  rewrite lookup_delete_eq, !lookup_insert_eq. repeat split.
Qed.

(** When rendering [CLAUDE.md] raises (a query about it fails, it is a
    regular file that does not read as text, or it is a directory with a
    [*.md] entry that does not), the AI rules page still returns normally:
    the success message is on the screen, the failure message comes last,
    and neither [AGENTS.md] nor [.cursor/rules] is displayed. *)
Theorem unreadable_artifact_ends_display ext ws w c :
  (CallAIRules c, None) ∈ new_calls (ai_rules_page ext ws) w →
  let run := ai_rules_page ext ws w in
  let out := new_screen (ai_rules_page ext ws) w in
  readable (after_call AI_Rules ext ws w)
    (AIRulesHandlerConfig.repo_path c // "CLAUDE.md") = false →
  run.1 = Ok tt ∧
  st_success "✅ AI rules generated successfully!" ∈ out ∧
  (∃ m, last out = Some (st_error ("❌ AI rules generation failed: " +:+ m))) ∧
  ¬ (st_expander "📝 AGENTS.md" ∈ out) ∧
  ¬ (st_expander "📝 Cursor Rules" ∈ out).
Proof.
  change (ai_rules_page ext ws) with (controller AI_Rules ext ws).
  intros Hin. destruct (results_page_screen AI_Rules ext ws w _ ltac:(done) Hin)
    as ([= ->] & Hok & Hout).
  cbv zeta. rewrite Hout. clear Hout Hin.
  set (f := after_call AI_Rules ext ws w).
  set (repo := AIRulesHandlerConfig.repo_path (ai_rules_form ws (repo_path_field ws w))).
  intros (text & Htext)%(unreadable_rendering f (repo // "CLAUDE.md") "CLAUDE.md").
  change (results_rendering AI_Rules f (repo_path_field ws w))
    with (st_markdown "### 📄 Generated Files"
            :: (render_each (artifact_rendering f) (files_to_display repo)).1,
          (render_each (artifact_rendering f) (files_to_display repo)).2).
  unfold files_to_display. rewrite render_each_cons, Htext.
  cbn [fst snd spinner_text success_text failure_prefix].
  fold (artifact_view f (repo // "CLAUDE.md", "CLAUDE.md")).
  split; [done|]. split; [apply list_elem_of_further, list_elem_of_here|].
  split.
  { exists text. by rewrite !app_comm_cons, last_snoc. }
  split; intros H; on_screen H; apply elem_of_app in H as [H|H];
    try (apply artifact_expander in H as [? _]; discriminate); on_screen H.
Qed.

Lemma unreadable_artifact_ends_display_witness :
  let ws := Scenario.type_path "/srv/beta" (Scenario.press "🚀 Generate AI Rules" ∅) in
  let c := ai_rules_form ws "/srv/beta" in
  let run := ai_rules_page Scenario.calm ws Scenario.ready in
  let out := new_screen (ai_rules_page Scenario.calm ws) Scenario.ready in
  (CallAIRules c, None) ∈ new_calls (ai_rules_page Scenario.calm ws) Scenario.ready ∧
  readable (after_call AI_Rules Scenario.calm ws Scenario.ready)
    (AIRulesHandlerConfig.repo_path c // "CLAUDE.md") = false ∧
  run.1 = Ok tt ∧
  st_success "✅ AI rules generated successfully!" ∈ out ∧
  (∃ m, last out = Some (st_error ("❌ AI rules generation failed: " +:+ m))) ∧
  ¬ (st_expander "📝 AGENTS.md" ∈ out) ∧
  ¬ (st_expander "📝 Cursor Rules" ∈ out).
Proof.
  intros ws c run out.
  assert (Hin : (CallAIRules c, None)
                  ∈ new_calls (ai_rules_page Scenario.calm ws) Scenario.ready).
  { assert (new_calls (ai_rules_page Scenario.calm ws) Scenario.ready
            = [(CallAIRules c, None)]) as -> by (vm_compute; reflexivity).
    by apply list_elem_of_singleton. }
  assert (Hr : readable (after_call AI_Rules Scenario.calm ws Scenario.ready)
                 (AIRulesHandlerConfig.repo_path c // "CLAUDE.md") = false)
    by (vm_compute; reflexivity).
  split; [exact Hin|]. split; [exact Hr|].
  exact (unreadable_artifact_ends_display Scenario.calm ws Scenario.ready c Hin Hr).
Defined.

Lemma rerun_keeps_idle_witness :
  let ws := Scenario.press "🚀 Start Analysis" ∅ in
  (session_state Scenario.fresh !! "analysis_running" = None ∨ idle Scenario.fresh) ∧
  (∀ c e, (c, Some e) ∈ new_calls (rerun Scenario.broken ws) Scenario.fresh →
          is_Exception e = true) ∧
  idle (rerun Scenario.broken ws Scenario.fresh).2.
Proof.
  intros ws.
  assert (H0 : session_state Scenario.fresh !! "analysis_running" = None
               ∨ idle Scenario.fresh) by (left; reflexivity).
  assert (H1 : ∀ c e, (c, Some e) ∈ new_calls (rerun Scenario.broken ws) Scenario.fresh →
                      is_Exception e = true).
  { intros c e.
    assert (new_calls (rerun Scenario.broken ws) Scenario.fresh
            = [(form_call Analysis ws "/srv/alpha", Some Scenario.RuntimeError)]) as ->
      by (vm_compute; reflexivity).
    by intros [= _ ->]%list_elem_of_singleton. }
  split; [exact H0|]. split; [exact H1|].
  exact (rerun_keeps_idle Scenario.broken ws Scenario.fresh H0 H1).
Defined.

Lemma rerun_elsewhere_keeps_session_witness :
  let ws := Scenario.navigate 1 (Scenario.press "📝 Generate README" ∅) in
  let w := (controller Analysis Scenario.calm (Scenario.press "🚀 Start Analysis" ∅)
              Scenario.ready).2 in
  (∀ key, key ∈ ["analysis_running"; "analysis_complete"; "generated_files"] →
          is_Some (session_state w !! key)) ∧
  st_radio ws "Navigation" ["📊 Analysis"; "📖 README"; "🤖 AI Rules"; "ℹ️ About"]
    ≠ "📊 Analysis" ∧
  session_state (rerun Scenario.calm ws w).2 = session_state w ∧
  session_state w !! "generated_files"
    = Some (VList [Path "/srv/alpha/.ai/docs/structure.md"]).
Proof.
  intros ws w.
  assert (H0 : ∀ key, key ∈ ["analysis_running"; "analysis_complete"; "generated_files"] →
                      is_Some (session_state w !! key)).
  { intros key H. on_screen H; subst key; vm_compute; eauto. }
  assert (H1 : st_radio ws "Navigation"
                 ["📊 Analysis"; "📖 README"; "🤖 AI Rules"; "ℹ️ About"] ≠ "📊 Analysis")
    by (vm_compute; discriminate).
  split; [exact H0|]. split; [exact H1|].
  split; [exact (rerun_elsewhere_keeps_session Scenario.calm ws w H0 H1)|].
  vm_compute. reflexivity.
Defined.

Lemma analysis_displays_scanned_files_witness :
  let ws := Scenario.press "🚀 Start Analysis" ∅ in
  let c := analyze_form ws "/srv/alpha" in
  let run := analyze_page Scenario.calm ws Scenario.ready in
  let f := after_call Analysis Scenario.calm ws Scenario.ready in
  let docs := AnalyzeHandlerConfig.repo_path c // ".ai" // "docs" in
  let structure := Path "/srv/alpha/.ai/docs/structure.md" in
  (CallAnalyze c, None) ∈ new_calls (analyze_page Scenario.calm ws) Scenario.ready ∧
  path_exists f docs = Done true ∧
  glob_md f docs = Done [structure] ∧
  read_all f [structure] = Some [(structure, "# Structure")] ∧
  session_state run.2 !! "generated_files" = Some (VList [structure]) ∧
  run.1 = Ok tt ∧
  new_screen (analyze_page Scenario.calm ws) Scenario.ready =
    [ st_spinner (spinner_text Analysis);
      st_success "✅ Analysis completed successfully!";
      st_markdown "### 📄 Generated Analysis Files";
      st_expander "📝 structure.md";
      st_markdown "# Structure";
      st_download_button "⬇️ Download" "# Structure" "structure.md" "text/markdown" ].
Proof.
  intros ws c run f docs structure.
  assert (Hin : (CallAnalyze c, None)
                  ∈ new_calls (analyze_page Scenario.calm ws) Scenario.ready).
  { assert (new_calls (analyze_page Scenario.calm ws) Scenario.ready
            = [(CallAnalyze c, None)]) as -> by (vm_compute; reflexivity).
    by apply list_elem_of_singleton. }
  assert (Hd : path_exists f docs = Done true) by (vm_compute; reflexivity).
  assert (Hg : glob_md f docs = Done [structure]) by (vm_compute; reflexivity).
  assert (Hr : read_all f [structure] = Some [(structure, "# Structure")])
    by (vm_compute; reflexivity).
  split; [exact Hin|]. split; [exact Hd|]. split; [exact Hg|]. split; [exact Hr|].
  destruct (analysis_displays_scanned_files Scenario.calm ws Scenario.ready c [structure]
              Hin Hd Hg) as [Hstored Hshown].
  split; [exact Hstored|]. exact (Hshown _ Hr).
Defined.

Lemma analysis_keeps_old_files_witness :
  let ws_alpha := Scenario.press "🚀 Start Analysis" ∅ in
  let ws_beta := Scenario.type_path "/srv/beta" ws_alpha in
  let first := (analyze_page Scenario.calm ws_alpha Scenario.ready).2 in
  let c := analyze_form ws_beta "/srv/beta" in
  let run := analyze_page Scenario.calm ws_beta first in
  (CallAnalyze c, None) ∈ new_calls (analyze_page Scenario.calm ws_beta) first ∧
  path_exists (after_call Analysis Scenario.calm ws_beta first)
    (AnalyzeHandlerConfig.repo_path c // ".ai" // "docs") = Done false ∧
  session_state run.2 !! "analysis_complete" = Some (VBool true) ∧
  session_state run.2 !! "generated_files" = session_state first !! "generated_files".
Proof.
  intros ws_alpha ws_beta first c run.
  assert (Hin : (CallAnalyze c, None)
                  ∈ new_calls (analyze_page Scenario.calm ws_beta) first).
  { assert (new_calls (analyze_page Scenario.calm ws_beta) first
            = [(CallAnalyze c, None)]) as -> by (vm_compute; reflexivity).
    by apply list_elem_of_singleton. }
  assert (Hd : path_exists (after_call Analysis Scenario.calm ws_beta first)
                 (AnalyzeHandlerConfig.repo_path c // ".ai" // "docs") = Done false)
    by (vm_compute; reflexivity).
  split; [exact Hin|]. split; [exact Hd|].
  exact (analysis_keeps_old_files Scenario.calm ws_beta first c Hin Hd).
Defined.

Lemma analyze_page_flags ext ws w :
  ¬ (session_state w !! "analysis_running" = Some (VBool true) ∧
     session_state w !! "analysis_complete" = Some (VBool true)) →
  ¬ (session_state (analyze_page ext ws w).2 !! "analysis_running" = Some (VBool true) ∧
     session_state (analyze_page ext ws w).2 !! "analysis_complete" = Some (VBool true)).
Proof.
  intros Hw.
  destruct (st_button ws "🚀 Start Analysis") eqn:Hb.
  2:{ rewrite analyze_page_idle by done. by rewrite analyze_display_session. }
  destruct (path_exists (fs w) (Path (repo_path_field ws w))) as [[]|text] eqn:He.
  2:{ by rewrite analyze_page_nonexistent. }
  2:{ by rewrite (analyze_page_unchecked ext ws w text). }
  pose proof (analysis_flags_after_call ext ws w
                (form_call Analysis ws (repo_path_field ws w))
                (handler_outcome Analysis ext ws w).2) as Hflags.
  change (analyze_page ext ws) with (controller Analysis ext ws) in Hflags at 1.
  rewrite new_calls_controller in Hflags. unfold submit_button, path_found in Hflags.
  rewrite Hb, He in Hflags. specialize (Hflags ltac:(by apply list_elem_of_singleton)).
  cbv zeta in Hflags.
  destruct (handler_outcome Analysis ext ws w).2 as [e|].
  - destruct Hflags as (Hc & _). rewrite Hc. by intros [_ ?].
  - destruct Hflags as (_ & Hr). rewrite Hr. by intros [? _].
Qed.

(** The two flags are never both set: if [analysis_running] and
    [analysis_complete] are not both true before a run of the script, they
    are not both true after it, whatever page runs and whatever the handler
    does or raises. *)
Theorem flags_never_both_true ext ws w :
  ¬ (session_state w !! "analysis_running" = Some (VBool true) ∧
     session_state w !! "analysis_complete" = Some (VBool true)) →
  ¬ (session_state (rerun ext ws w).2 !! "analysis_running" = Some (VBool true) ∧
     session_state (rerun ext ws w).2 !! "analysis_complete" = Some (VBool true)).
Proof.
  intros Hw. rewrite rerun_run.
  set (w1 := mkWorld (fs w) (initialised (session_state w)) [] (calls w) (log w)).
  assert (¬ (session_state w1 !! "analysis_running" = Some (VBool true) ∧
             session_state w1 !! "analysis_complete" = Some (VBool true))) as Hw1.
  { unfold w1, initialised; simpl. rewrite !initial_lookup. intros [H1 H2]. apply Hw.
    destruct (session_state w !! "analysis_running"),
             (session_state w !! "analysis_complete"); split; try done;
      by repeat case_decide. }
  destruct (route_cases ext ws (st_radio ws "Navigation"
              ["📊 Analysis"; "📖 README"; "🤖 AI Rules"; "ℹ️ About"]))
    as [[p Hr]|[Hr|Hr]]; rewrite Hr; [|done..].
  destruct p; unfold controller.
  - by apply analyze_page_flags.
  - by rewrite readme_page_session.
  - by rewrite ai_rules_page_session.
Qed.

Lemma flags_never_both_true_witness :
  let ws := Scenario.press "🚀 Start Analysis" ∅ in
  ¬ (session_state Scenario.fresh !! "analysis_running" = Some (VBool true) ∧
     session_state Scenario.fresh !! "analysis_complete" = Some (VBool true)) ∧
  ¬ (session_state (rerun Scenario.interrupted ws Scenario.fresh).2 !! "analysis_running"
       = Some (VBool true) ∧
     session_state (rerun Scenario.interrupted ws Scenario.fresh).2 !! "analysis_complete"
       = Some (VBool true)).
Proof.
  intros ws.
  assert (H0 : ¬ (session_state Scenario.fresh !! "analysis_running" = Some (VBool true) ∧
                  session_state Scenario.fresh !! "analysis_complete" = Some (VBool true)))
    by (intros [H _]; vm_compute in H; discriminate).
  split; [exact H0|].
  exact (flags_never_both_true Scenario.interrupted ws Scenario.fresh H0).
Defined.
